(** * Request workflow of the portal backend: a shallow embedding

    The development follows [app/utils/response.py], [app/routers/requests.py]
    and [app/routers/admin.py].  Tables with a primary key are finite maps
    from the key to the row, the two association tables are bags of pairs,
    the handlers are functions from the state of the world (database, stored
    files, scheduled background tasks) to the new state and the outcome of the
    call. *)

From Stdlib Require Import ZArith String Ascii DecimalString DecimalPos.
From stdpp Require Import gmap strings list sorting.

Local Open Scope string_scope.
Local Open Scope Z_scope.
Local Open Scope list_scope.

(** ** Python text primitives used by the handlers *)

Module Py.

(** [str(n)] for an integer. *)
Definition str (n : Z) : string := NilZero.string_of_int (Z.to_int n).

Fixpoint zeros (k : nat) : string :=
  match k with
  | O => ""
  | S k' => String "0" (zeros k')
  end.

(** [s.zfill(width)]: zeros go after a leading sign. *)
Definition zfill (width : nat) (s : string) : string :=
  let fill := (width - String.length s)%nat in
  match s with
  | String c rest =>
      if (Ascii.eqb c "+" || Ascii.eqb c "-")%bool
      then String c (zeros fill +:+ rest)
      else zeros fill +:+ s
  | EmptyString => zeros fill
  end.

Definition is_digit (c : ascii) : bool :=
  let n := nat_of_ascii c in ((48 <=? n)%nat && (n <=? 57)%nat)%bool.

(** Whitespace removed by [str.strip()], on ASCII text. *)
Definition is_space (c : ascii) : bool :=
  let n := nat_of_ascii c in
  (((9 <=? n)%nat && (n <=? 13)%nat) || ((28 <=? n)%nat && (n <=? 32)%nat))%bool.

Fixpoint all_chars (p : ascii -> bool) (s : string) : bool :=
  match s with
  | EmptyString => true
  | String c r => (p c && all_chars p r)%bool
  end.

(** [s.isdigit()]: at least one character, all of them digits. *)
Definition isdigit (s : string) : bool :=
  match s with
  | EmptyString => false
  | _ => all_chars is_digit s
  end.

Fixpoint lstrip (s : string) : string :=
  match s with
  | EmptyString => ""
  | String c r => if is_space c then lstrip r else s
  end.

Fixpoint rstrip (s : string) : string :=
  match s with
  | EmptyString => ""
  | String c r =>
      match rstrip r with
      | EmptyString => if is_space c then "" else String c ""
      | r' => String c r'
      end
  end.

Definition strip (s : string) : string := rstrip (lstrip s).

(** [s.split(sep)] for a one-character separator: never the empty list. *)
Fixpoint split (sep : ascii) (s : string) : list string :=
  match s with
  | EmptyString => [""]
  | String c r =>
      if Ascii.eqb c sep then "" :: split sep r
      else match split sep r with
           | h :: t => String c h :: t
           | [] => [String c ""]
           end
  end.

(** [sep.join(tokens)]. *)
Fixpoint join (sep : ascii) (l : list string) : string :=
  match l with
  | [] => ""
  | [x] => x
  | x :: rest => x +:+ String sep (join sep rest)
  end.

Definition digit_value (c : ascii) : Z := Z.of_nat (nat_of_ascii c) - 48.

Fixpoint int_acc (s : string) (acc : Z) : Z :=
  match s with
  | EmptyString => acc
  | String c r => int_acc r (10 * acc + digit_value c)
  end.

(** [int(s)] on a string of digits. *)
Definition int (s : string) : Z := int_acc s 0.

(** [s.replace(old, new)] for single characters. *)
Fixpoint replace (old new : ascii) (s : string) : string :=
  match s with
  | EmptyString => ""
  | String c r => String (if Ascii.eqb c old then new else c) (replace old new r)
  end.

(** [os.path.basename]: what follows the last slash. *)
Definition basename (s : string) : string := List.last (split "/" s) "".

Definition ends_with_slash (s : string) : bool :=
  match List.last (list_ascii_of_string s) " "%char with
  | "/"%char => true
  | _ => false
  end.

(** [os.path.join(a, b)] (POSIX). *)
Definition path_join (a b : string) : string :=
  match b with
  | String "/" _ => b
  | _ => if (String.eqb a "" || ends_with_slash a)%bool then a +:+ b
         else a +:+ String "/" b
  end.

(** [a or b] on an optional string: [None] and the empty string are falsy. *)
Definition or_else (a : option string) (b : string) : string :=
  match a with
  | Some (String c r) => String c r
  | _ => b
  end.

(** Truth value of an optional integer: [None] and [0] are falsy. *)
Definition truthy (o : option Z) : bool :=
  match o with
  | Some z => negb (z =? 0)%Z
  | None => false
  end.

Definition truthy_str (o : option string) : bool :=
  match o with
  | Some (String _ _) => true
  | _ => false
  end.

End Py.

(** ** Clock values *)

Record datetime := mkDatetime {
  year : Z; month : Z; day : Z;
  hour : Z; minute : Z; second : Z; microsecond : Z
}.

(** [strftime('%Y%m%d')]. *)
Definition strftime_Ymd (d : datetime) : string :=
  Py.zfill 4 (Py.str (year d)) +:+ Py.zfill 2 (Py.str (month d))
    +:+ Py.zfill 2 (Py.str (day d)).

(** [strftime('%Y%m%d%H%M%S')]. *)
Definition strftime_YmdHMS (d : datetime) : string :=
  strftime_Ymd d +:+ Py.zfill 2 (Py.str (hour d))
    +:+ Py.zfill 2 (Py.str (minute d)) +:+ Py.zfill 2 (Py.str (second d)).

Definition datetime_fields (d : datetime) : list Z :=
  [year d; month d; day d; hour d; minute d; second d; microsecond d].

Fixpoint lex_leb (a b : list Z) : bool :=
  match a, b with
  | [], _ => true
  | _ :: _, [] => false
  | x :: a', y :: b' => ((x <? y)%Z || ((x =? y)%Z && lex_leb a' b'))%bool
  end.

(** Chronological order of two timestamps. *)
Definition datetime_leb (a b : datetime) : bool :=
  lex_leb (datetime_fields a) (datetime_fields b).

(** ** JSON values and the response envelope ([app/utils/response.py]) *)

Set Warnings "-register-all,-clear-no-such-hyp".

(** A Python dict is kept as the list of its keys and values, in order. *)
Inductive Json :=
| JNone
| JBool (b : bool)
| JInt (n : Z)
| JStr (s : string)
| JTime (t : datetime)
| JList (items : list Json)
| JDict (entries : list (string * Json)).

Definition Dict := list (string * Json).

Fixpoint dict_get (k : string) (d : Dict) : option Json :=
  match d with
  | [] => None
  | (k', v) :: rest => if String.eqb k k' then Some v else dict_get k rest
  end.

Definition keys (d : Dict) : list string := map fst d.

Definition opt_str (o : option string) : Json :=
  match o with Some s => JStr s | None => JNone end.

Definition opt_int (o : option Z) : Json :=
  match o with Some n => JInt n | None => JNone end.

Definition opt_time (o : option datetime) : Json :=
  match o with Some t => JTime t | None => JNone end.

Definition success_response
    (message_en : string) (message_ar : option string) (data : Json) : Dict :=
  [ ("success", JBool true);
    ("message", JStr message_en);
    ("message_ar", JStr (Py.or_else message_ar message_en));
    ("data", data) ].

Definition error_response
    (message_en : string) (message_ar : option string)
    (error_code : option string) : Dict :=
  [ ("success", JBool false);
    ("message", JStr message_en);
    ("message_ar", JStr (Py.or_else message_ar message_en));
    ("error_code", opt_str error_code) ].

(** ** Tables *)

Module User.
Record t := mk { RoleID : option Z; Email : option string; FirstName : option string }.
End User.

(** Rows of the lookup tables (Status, Category, ComplaintScreen,
    RequestInformation, Format, Projection): the columns the workflow reads. *)
Module Lookup.
Record t := mk { Name : option string; Name_Ar : option string }.
End Lookup.

Module Request.
Record t := mk {
  UserId : option Z;
  CategoryId : option Z;
  ComplaintScreenId : option Z;
  Subject : option string;
  Body : option string;
  AssignedRoleId : option Z;
  RequestNumber : string;
  StatusId : option Z;
  CreatedAt : datetime;
  AttachPath : option string;
  CreatedByUserID : option Z;
  UpdatedAt : option datetime;
  UpdatedByUserID : option Z
}.
End Request.

Module RequestData.
Record t := mk {
  RequestId : Z;
  ProspectiveName : option string;
  Coordinate_TopLeft : option string;
  Coordinate_BottomRight : option string;
  ProjectionId : option Z;
  OtherSpecification : option string;
  OtherFormat : option string;
  IntendedPurpose : option string;
  RequirementsDetails : option string;
  CreatedAt : datetime
}.
End RequestData.

Module Reply.
Record t := mk {
  RequestId : Z;
  Subject : option string;
  Body : option string;
  AttachmentPath : option string;
  ResponderUserId : Z;
  CreatedAt : datetime;
  CreatedByUserID : Z;
  IsDeleted : option bool
}.
End Reply.

(** Modelled from the spec: the declaration of the Reply table
    ([app/models/requests.py]) is not among the sources.  Replies are
    "soft-deletable by flag" and a reply that was just written is an active
    one, so the flag of a new row is false. *)
Definition Reply_IsDeleted_default : option bool := Some false.

(** Modelled from the spec: the two association tables are declared in
    [app/models/requests.py], which is not among the sources.  They have "no
    surrogate key" and keep duplicates "as separate rows": a bag of
    (RequestId, other id) pairs, in insertion order. *)
Definition AssociationTable : Type := list (Z * Z).

(** The database.  A table with an identity primary key is a finite map from
    the key to the row and comes with the next value the storage engine
    hands out. *)
Record DB := mkDB {
  Requests : gmap Z Request.t;
  Requests_identity : Z;
  RequestDatas : gmap Z RequestData.t;
  RequestDatas_identity : Z;
  Replies : gmap Z Reply.t;
  Replies_identity : Z;
  Request_RequestInformation : AssociationTable;
  Request_Format : AssociationTable;
  Users : gmap Z User.t;
  Statuses : gmap Z Lookup.t;
  Categories : gmap Z Lookup.t;
  Projections : gmap Z Lookup.t;
  ComplaintScreens : gmap Z Lookup.t;
  RequestInformations : gmap Z Lookup.t;
  Formats : gmap Z Lookup.t
}.

(** Bodies of the notification mails: the HTML template that is filled and
    the values interpolated into it. *)
Inductive EmailBody :=
| NewRequestBody (first_name email : option string)
                 (category_name : option string)
                 (request_number subject body : string)
| ReceivedBody (first_name : option string) (request_number : string)
               (category_name : option string)
| ReplyBody (first_name : option string) (request_number body : string).

(** Calls handed to [background_tasks.add_task]. *)
Inductive Task :=
| send_email (subject : string) (body : EmailBody) (to : option string)
| send_email_with_attachment (subject : string) (body : EmailBody)
                             (to : option string) (path : string)
| send_reply_email (subject : string) (body : EmailBody) (to : option string).

(** Constants of [app/utils/email.py], which is not among the sources. *)
Record Config := mkConfig {
  REQUEST_DIR : string;
  ADMIN_UPLOAD_DIR : string;
  SYSTEM_EMAIL : string
}.

(** Everything a handler can change: rows, files written to the upload
    directories (path and content), background tasks scheduled. *)
Record World := mkWorld {
  db : DB;
  files : list (string * string);
  tasks : list Task
}.

(** What a call produces: the dict a handler returns, an [HTTPException]
    raised by a dependency or a handler, or the framework's refusal of a
    query parameter that violates its declared bounds. *)
Inductive Outcome :=
| Returned (body : Dict)
| Raised (status_code : Z) (detail : string)
| Unprocessable (parameter : string).

Record UploadFile := mkUpload { filename : string; file : string }.

(** ** Queries *)

(** [order_by(Id.desc()).first()]: the highest key of a table. *)
Definition max_of (l : list Z) : option Z :=
  foldr (fun k acc => Some (match acc with Some a => Z.max k a | None => k end))
        None l.

Definition last_id {A} (m : gmap Z A) : option Z :=
  max_of (map fst (map_to_list m)).

Definition key_le {A} (a b : Z * A) : Prop := a.1 <= b.1.

#[global] Instance key_le_dec {A} (a b : Z * A) : Decision (key_le a b) :=
  decide (a.1 <= b.1).

(** Rows of a table in primary-key order. *)
Definition rows {A} (m : gmap Z A) : list (Z * A) :=
  merge_sort key_le (map_to_list m).

(** [f"{x}"] of an optional text: [None] prints as "None". *)
Definition fmt (o : option string) : string :=
  match o with Some s => s | None => "None" end.

(** ** Dependencies of the admin router ([app/routers/admin.py]) *)

(** The token payload is what [JWTBearer] hands over: the caller's user id.
    A user entity is the pair of its key and its row. *)
Definition get_current_user (payload : Z) (d : DB) : Outcome + (Z * User.t) :=
  match Users d !! payload with
  | None => inl (Raised 401 "User not found")
  | Some u => inr (payload, u)
  end.

Definition require_admin (payload : Z) (d : DB) : Outcome + (Z * User.t) :=
  match get_current_user payload d with
  | inl e => inl e
  | inr user =>
      if negb (bool_decide (User.RoleID user.2 = Some 1))
      then inl (Raised 403 "Admins only")
      else inr user
  end.

(** ** Request creation ([app/routers/requests.py]) *)

Module CreateForm.
Record t := mk {
  CategoryId : Z;
  ComplaintScreenId : option Z;
  Subject : option string;
  Body : option string;
  ProspectiveName : option string;
  Coordinate_TopLeft : option string;
  Coordinate_BottomRight : option string;
  ProjectionId : option Z;
  OtherSpecification : option string;
  OtherFormat : option string;
  IntendedPurpose : option string;
  RequirementsDetails : option string;
  RequestInformationIds : option string;
  FormatIds : option string;
  attach : option UploadFile
}.
End CreateForm.

(** The clock as [create_request] reads it, in the order of the reads. *)
Record CreateClock := mkCreateClock {
  utcnow_attach : datetime;
  now_number : datetime;
  utcnow_created : datetime;
  utcnow_data : datetime
}.

Definition parse_list (v : option string) : list Z :=
  match v with
  | Some (String c r) =>
      map (fun x => Py.int (Py.strip x))
          (filter (fun x => Py.isdigit (Py.strip x) = true)
                  (Py.split "," (String c r)))
  | _ => []
  end.

(** Step 2 of [create_request]: the number to give to the next request. *)
Definition next_number (d : DB) : Z :=
  match last_id (Requests d) with
  | None => 1
  | Some last_request => last_request + 1
  end.

Definition request_number_of (today : datetime) (number : Z) : string :=
  "RQ-" +:+ strftime_Ymd today +:+ "-" +:+ Py.zfill 4 (Py.str number).

(** Step 3: [None] when the projection is refused, else the normalised id. *)
Definition validate_projection (d : DB) (ProjectionId : option Z)
  : option (option Z) :=
  match ProjectionId with
  | None => Some None
  | Some p =>
      if (p =? 0)%Z then Some None
      else if (Py.truthy (Some p) && negb (bool_decide (is_Some (Projections d !! p))))%bool
           then None
           else Some (Some p)
  end.

Definition add_request (r : Request.t) (d : DB) : Z * DB :=
  let id := Requests_identity d in
  (id, mkDB (<[id := r]> (Requests d)) (id + 1)
            (RequestDatas d) (RequestDatas_identity d)
            (Replies d) (Replies_identity d)
            (Request_RequestInformation d) (Request_Format d)
            (Users d) (Statuses d) (Categories d) (Projections d)
            (ComplaintScreens d) (RequestInformations d) (Formats d)).

Definition add_request_data (r : RequestData.t) (d : DB) : DB :=
  let id := RequestDatas_identity d in
  mkDB (Requests d) (Requests_identity d)
       (<[id := r]> (RequestDatas d)) (id + 1)
       (Replies d) (Replies_identity d)
       (Request_RequestInformation d) (Request_Format d)
       (Users d) (Statuses d) (Categories d) (Projections d)
       (ComplaintScreens d) (RequestInformations d) (Formats d).

Definition add_associations (infos formats : list (Z * Z)) (d : DB) : DB :=
  mkDB (Requests d) (Requests_identity d)
       (RequestDatas d) (RequestDatas_identity d)
       (Replies d) (Replies_identity d)
       (Request_RequestInformation d ++ infos) (Request_Format d ++ formats)
       (Users d) (Statuses d) (Categories d) (Projections d)
       (ComplaintScreens d) (RequestInformations d) (Formats d).

Definition create_request
    (cfg : Config) (clock : CreateClock) (form : CreateForm.t)
    (user : Z * User.t) (w : World) : World * Outcome :=
  (* 1) save attachment *)
  let '(attach_rel, files1) :=
    match CreateForm.attach form with
    | Some attach =>
        let safe_name :=
          strftime_YmdHMS (utcnow_attach clock) +:+ "_"
            +:+ Py.replace " " "_" (filename attach) in
        let save_path := Py.path_join (REQUEST_DIR cfg) safe_name in
        (Some ("requests/" +:+ safe_name), files w ++ [(save_path, file attach)])
    | None => (None, files w)
    end in
  (* 2) generate request number *)
  let request_number := request_number_of (now_number clock) (next_number (db w)) in
  (* 3) validate projection *)
  match validate_projection (db w) (CreateForm.ProjectionId form) with
  | None =>
      (mkWorld (db w) files1 (tasks w),
       Returned (error_response "Invalid ProjectionId"
                   (Some "معرف الإسقاط غير صالح") None))
  | Some ProjectionId =>
      (* 4) create main request *)
      let new_request :=
        Request.mk (Some user.1) (Some (CreateForm.CategoryId form))
          (CreateForm.ComplaintScreenId form) (CreateForm.Subject form)
          (CreateForm.Body form) None request_number (Some 7)
          (utcnow_created clock) attach_rel None None None in
      let '(new_id, d1) := add_request new_request (db w) in
      (* 5) create RequestData (category 8) *)
      let d2 :=
        if (CreateForm.CategoryId form =? 8)%Z
        then add_request_data
               (RequestData.mk new_id (CreateForm.ProspectiveName form)
                  (CreateForm.Coordinate_TopLeft form)
                  (CreateForm.Coordinate_BottomRight form)
                  ProjectionId (CreateForm.OtherSpecification form)
                  (CreateForm.OtherFormat form)
                  (CreateForm.IntendedPurpose form)
                  (CreateForm.RequirementsDetails form)
                  (utcnow_data clock)) d1
        else d1 in
      (* 6) insert the many-to-many rows *)
      let d3 :=
        add_associations
          (map (fun info_id => (new_id, info_id))
               (parse_list (CreateForm.RequestInformationIds form)))
          (map (fun fmt_id => (new_id, fmt_id))
               (parse_list (CreateForm.FormatIds form))) d2 in
      (* 7) prepare the mails *)
      let category_name :=
        match Categories d3 !! CreateForm.CategoryId form with
        | Some category => Lookup.Name category
        | None => Some "Unknown Category"
        end in
      let admin_body :=
        NewRequestBody (User.FirstName user.2) (User.Email user.2) category_name
          request_number (Py.or_else (CreateForm.Subject form) "N/A")
          (Py.or_else (CreateForm.Body form) "N/A") in
      let admin_subject :=
        "New Request " +:+ request_number +:+ " - " +:+ fmt category_name in
      let admin_task :=
        match attach_rel with
        | Some path =>
            send_email_with_attachment admin_subject admin_body
              (Some (SYSTEM_EMAIL cfg)) path
        | None => send_email admin_subject admin_body (Some (SYSTEM_EMAIL cfg))
        end in
      let user_body :=
        ReceivedBody (User.FirstName user.2) request_number category_name in
      let user_task :=
        send_email ("NGD - Request " +:+ request_number +:+ " received")
          user_body (User.Email user.2) in
      (* 8) response *)
      (mkWorld d3 files1 (tasks w ++ [admin_task; user_task]),
       Returned (success_response "Request created successfully"
                   (Some "تم إنشاء الطلب بنجاح")
                   (JDict [ ("request_id", JInt new_id);
                            ("request_number", JStr request_number);
                            ("AttachPath", opt_str attach_rel) ])))
  end.

(** ** Admin operations ([app/routers/admin.py]) *)

Definition set_requests (reqs : gmap Z Request.t) (d : DB) : DB :=
  mkDB reqs (Requests_identity d)
       (RequestDatas d) (RequestDatas_identity d)
       (Replies d) (Replies_identity d)
       (Request_RequestInformation d) (Request_Format d)
       (Users d) (Statuses d) (Categories d) (Projections d)
       (ComplaintScreens d) (RequestInformations d) (Formats d).

Definition add_reply (r : Reply.t) (d : DB) : Z * DB :=
  let id := Replies_identity d in
  (id, mkDB (Requests d) (Requests_identity d)
            (RequestDatas d) (RequestDatas_identity d)
            (<[id := r]> (Replies d)) (id + 1)
            (Request_RequestInformation d) (Request_Format d)
            (Users d) (Statuses d) (Categories d) (Projections d)
            (ComplaintScreens d) (RequestInformations d) (Formats d)).

Definition with_AssignedRoleId (role : option Z) (r : Request.t) : Request.t :=
  Request.mk (Request.UserId r) (Request.CategoryId r)
    (Request.ComplaintScreenId r) (Request.Subject r) (Request.Body r)
    role (Request.RequestNumber r) (Request.StatusId r) (Request.CreatedAt r)
    (Request.AttachPath r) (Request.CreatedByUserID r) (Request.UpdatedAt r)
    (Request.UpdatedByUserID r).

(** The three assignments of [admin_reply] to the request row. *)
Definition with_status (status : option Z) (at_ : datetime) (by_ : Z)
    (r : Request.t) : Request.t :=
  Request.mk (Request.UserId r) (Request.CategoryId r)
    (Request.ComplaintScreenId r) (Request.Subject r) (Request.Body r)
    (Request.AssignedRoleId r) (Request.RequestNumber r) status
    (Request.CreatedAt r) (Request.AttachPath r) (Request.CreatedByUserID r)
    (Some at_) (Some by_).

Definition not_found : Dict :=
  error_response "Request not found" (Some "الطلب غير موجود")
    (Some "REQUEST_NOT_FOUND").

Definition assign_request (payload : Z) (request_id role_id : Z) (w : World)
  : World * Outcome :=
  match require_admin payload (db w) with
  | inl e => (w, e)
  | inr admin =>
      match Requests (db w) !! request_id with
      | None => (w, Returned not_found)
      | Some req =>
          let req' := with_AssignedRoleId (Some role_id) req in
          (mkWorld (set_requests (<[request_id := req']> (Requests (db w))) (db w))
                   (files w) (tasks w),
           Returned (success_response "Request assigned successfully"
                       (Some "تم تعيين الطلب بنجاح")
                       (JDict [("request_id", JInt request_id)])))
      end
  end.

(** [order_by(Request.CreatedAt.desc())]: [a] may come before [b]. *)
Definition created_desc (a b : Z * Request.t) : Prop :=
  datetime_leb (Request.CreatedAt b.2) (Request.CreatedAt a.2) = true.

#[global] Instance created_desc_dec a b : Decision (created_desc a b) :=
  decide (datetime_leb (Request.CreatedAt b.2) (Request.CreatedAt a.2) = true).

(** Left outer join of a request column with the key of another table. *)
Definition outer {A} (fk : option Z) (table : gmap Z A) : option A :=
  match fk with
  | Some k => table !! k
  | None => None
  end.

Definition list_row (d : DB) (e : Z * Request.t) : Json :=
  let req := e.2 in
  let status := outer (Request.StatusId req) (Statuses d) in
  let category := outer (Request.CategoryId req) (Categories d) in
  let user := outer (Request.UserId req) (Users d) in
  JDict [ ("id", JInt e.1);
          ("number", JStr (Request.RequestNumber req));
          ("created_at", JTime (Request.CreatedAt req));
          ("status_name_en", opt_str (status ≫= Lookup.Name));
          ("status_name_ar", opt_str (status ≫= Lookup.Name_Ar));
          ("type_name_en", opt_str (category ≫= Lookup.Name));
          ("type_name_ar", opt_str (category ≫= Lookup.Name_Ar));
          ("user_email", opt_str (user ≫= User.Email));
          ("subject", opt_str (Request.Subject req));
          ("body", opt_str (Request.Body req));
          ("AssignedRoleId", opt_int (Request.AssignedRoleId req)) ].

Definition base_query (d : DB) : list (Z * Request.t) :=
  merge_sort created_desc (map_to_list (Requests d)).

Definition paged_requests (page limit : Z) (d : DB) : list (Z * Request.t) :=
  let skip := (page - 1) * limit in
  take (Z.to_nat limit) (drop (Z.to_nat skip) (base_query d)).

Definition list_requests (payload : Z) (page limit : Z) (w : World)
  : World * Outcome :=
  match require_admin payload (db w) with
  | inl e => (w, e)
  | inr admin =>
      if negb (1 <=? page) then (w, Unprocessable "page")
      else if negb ((1 <=? limit) && (limit <=? 200)) then (w, Unprocessable "limit")
      else
        let results := map (list_row (db w)) (paged_requests page limit (db w)) in
        let total_requests := Z.of_nat (size (Requests (db w))) in
        (w, Returned (success_response "Requests fetched successfully"
                        (Some "تم جلب الطلبات بنجاح")
                        (JDict [ ("page", JInt page);
                                 ("limit", JInt limit);
                                 ("count", JInt (Z.of_nat (length results)));
                                 ("total", JInt total_requests);
                                 ("requests", JList results) ])))
  end.

(** [db.query(X).filter(X.Id == fk).first() if fk else None]. *)
Definition resolve {A} (fk : option Z) (table : gmap Z A) : option A :=
  if Py.truthy fk then outer fk table else None.

Definition names (o : option Lookup.t) : Json :=
  match o with
  | Some x => JDict [ ("Name_ar", opt_str (Lookup.Name_Ar x));
                      ("Name_En", opt_str (Lookup.Name x)) ]
  | None => JDict []
  end.

(** Entities of a lookup table joined with an association table and filtered
    on the request.  The session's query object hands out each entity once,
    however many joined rows carry it. *)
Definition joined (table : gmap Z Lookup.t) (assoc : list (Z * Z))
    (request_id : Z) : list Lookup.t :=
  omap (fun k => table !! k)
       (remove_dups (map snd (filter (fun row => row.1 = request_id) assoc))).

Definition active_replies (d : DB) (request_id : Z) : list (Z * Reply.t) :=
  filter (fun e => Reply.RequestId e.2 = request_id
                   /\ Reply.IsDeleted e.2 = Some false)
         (rows (Replies d)).

Definition reply_json (e : Z * Reply.t) : Json :=
  JDict [ ("id", JInt e.1);
          ("subject", opt_str (Reply.Subject e.2));
          ("body", opt_str (Reply.Body e.2));
          ("attachment_path", opt_str (Reply.AttachmentPath e.2));
          ("created_at", JTime (Reply.CreatedAt e.2));
          ("created_by", JInt (Reply.CreatedByUserID e.2));
          ("responder_user_id", JInt (Reply.ResponderUserId e.2)) ].

Definition request_data_details (d : DB) (request_id : Z)
    (category : option Z) : Dict :=
  if bool_decide (category = Some 8) then
    match filter (fun e => RequestData.RequestId e.2 = request_id)
                 (rows (RequestDatas d)) with
    | (_, rd) :: _ =>
        let projection := resolve (RequestData.ProjectionId rd) (Projections d) in
        [ ("prospective_name", opt_str (RequestData.ProspectiveName rd));
          ("coordinates",
           if (Py.truthy_str (RequestData.Coordinate_TopLeft rd)
               || Py.truthy_str (RequestData.Coordinate_BottomRight rd))%bool
           then JDict [ ("top_left", opt_str (RequestData.Coordinate_TopLeft rd));
                        ("bottom_right",
                         opt_str (RequestData.Coordinate_BottomRight rd)) ]
           else JDict []);
          ("projection", opt_str (projection ≫= Lookup.Name));
          ("other_specification", opt_str (RequestData.OtherSpecification rd));
          ("other_format", opt_str (RequestData.OtherFormat rd));
          ("intended_purpose", opt_str (RequestData.IntendedPurpose rd));
          ("requirements_details", opt_str (RequestData.RequirementsDetails rd));
          ("created_at", JTime (RequestData.CreatedAt rd)) ]
    | [] => []
    end
  else [].

(** [{**a, **b}]: a key of [b] replaces the value at its place in [a]. *)
Fixpoint dict_set (k : string) (v : Json) (d : Dict) : Dict :=
  match d with
  | [] => [(k, v)]
  | (k', v') :: rest =>
      if String.eqb k k' then (k, v) :: rest else (k', v') :: dict_set k v rest
  end.

Definition dict_update (a b : Dict) : Dict :=
  fold_left (fun acc kv => dict_set kv.1 kv.2 acc) b a.

Definition details (d : DB) (request_id : Z) (req : Request.t) : Dict :=
  let user := resolve (Request.UserId req) (Users d) in
  let category := resolve (Request.CategoryId req) (Categories d) in
  let status := resolve (Request.StatusId req) (Statuses d) in
  let complaint_screen :=
    resolve (Request.ComplaintScreenId req) (ComplaintScreens d) in
  let request_info :=
    joined (RequestInformations d) (Request_RequestInformation d) request_id in
  let formats := joined (Formats d) (Request_Format d) request_id in
  let replies := active_replies d request_id in
  dict_update
    [ ("id", JInt request_id);
      ("number", JStr (Request.RequestNumber req));
      ("status", names status);
      ("type", names category);
      ("user_email", opt_str (user ≫= User.Email));
      ("subject", opt_str (Request.Subject req));
      ("body", opt_str (Request.Body req));
      ("complaint_screen", names complaint_screen);
      ("assigned_role_id", opt_int (Request.AssignedRoleId req));
      ("attach_path", opt_str (Request.AttachPath req));
      ("created_at", JTime (Request.CreatedAt req));
      ("created_by", opt_int (Request.CreatedByUserID req));
      ("updated_at", opt_time (Request.UpdatedAt req));
      ("updated_by", opt_int (Request.UpdatedByUserID req));
      ("request_information",
       JList (map (fun ri => JDict [ ("Name_Ar", opt_str (Lookup.Name_Ar ri));
                                     ("name", opt_str (Lookup.Name ri)) ])
                  request_info));
      ("formats",
       JList (map (fun f => JDict [("name", opt_str (Lookup.Name f))]) formats));
      ("replies", JList (map reply_json replies)) ]
    (request_data_details d request_id
       (match category with
        | Some _ => Request.CategoryId req
        | None => None
        end)).

Definition get_request_details (payload : Z) (request_id : Z) (w : World)
  : World * Outcome :=
  match require_admin payload (db w) with
  | inl e => (w, e)
  | inr admin =>
      match Requests (db w) !! request_id with
      | None => (w, Returned not_found)
      | Some req =>
          (w, Returned (success_response "Request details fetched successfully"
                          (Some "تم جلب تفاصيل الطلب بنجاح")
                          (JDict [("request", JDict (details (db w) request_id req))])))
      end
  end.

(** The clock as [admin_reply] reads it, in the order of the reads. *)
Record ReplyClock := mkReplyClock {
  utcnow_file : datetime;
  utcnow_reply : datetime;
  utcnow_updated : datetime
}.

Definition admin_reply
    (cfg : Config) (clock : ReplyClock) (payload : Z)
    (request_id status_id : Z) (subject body : option string)
    (attachment : option UploadFile) (w : World) : World * Outcome :=
  match get_current_user payload (db w) with
  | inl e => (w, e)
  | inr user =>
      match Requests (db w) !! request_id with
      | None => (w, Returned not_found)
      | Some req =>
          let '(attachment_path, files1) :=
            match attachment with
            | Some a =>
                let orig_name := Py.basename (filename a) in
                let name :=
                  strftime_YmdHMS (utcnow_file clock) +:+ "_"
                    +:+ Py.replace " " "_" orig_name in
                (Some ("requests/reply/" +:+ name),
                 files w ++ [(Py.path_join (ADMIN_UPLOAD_DIR cfg) name, file a)])
            | None => (None, files w)
            end in
          let new_reply :=
            Reply.mk request_id subject body attachment_path user.1
              (utcnow_reply clock) user.1 Reply_IsDeleted_default in
          let '(reply_id, d1) := add_reply new_reply (db w) in
          let req' := with_status (Some status_id) (utcnow_updated clock) user.1 req in
          let d2 := set_requests (<[request_id := req']> (Requests d1)) d1 in
          let request_owner := outer (Request.UserId req') (Users d2) in
          match request_owner with
          | Some owner =>
              if Py.truthy_str (User.Email owner) then
                let email_subject :=
                  "NGD - Response to your request " +:+ Request.RequestNumber req' in
                let email_body :=
                  ReplyBody (User.FirstName owner) (Request.RequestNumber req')
                    (Py.or_else body "No message provided") in
                let task :=
                  match attachment_path with
                  | Some path =>
                      send_email_with_attachment email_subject email_body
                        (User.Email owner) path
                  | None => send_reply_email email_subject email_body (User.Email owner)
                  end in
                (mkWorld d2 files1 (tasks w ++ [task]),
                 Returned (success_response "Reply sent successfully"
                             (Some "تم إرسال الرد بنجاح")
                             (JDict [ ("reply_id", JInt reply_id);
                                      ("new_status", JInt status_id);
                                      ("request_id", JInt request_id) ])))
              else
                (mkWorld d2 files1 (tasks w),
                 Returned (error_response "Request owner email not found"
                             (Some "بريد صاحب الطلب غير موجود")
                             (Some "USER_EMAIL_NOT_FOUND")))
          | None =>
              (mkWorld d2 files1 (tasks w),
               Returned (error_response "Request owner email not found"
                           (Some "بريد صاحب الطلب غير موجود")
                           (Some "USER_EMAIL_NOT_FOUND")))
          end
      end
  end.

(** ** The operations as calls, and runs of calls one after the other *)

Inductive Call :=
| CreateRequest (cfg : Config) (clock : CreateClock) (form : CreateForm.t)
                (user : Z * User.t)
| AssignRequest (payload request_id role_id : Z)
| ListRequests (payload page limit : Z)
| GetRequestDetails (payload request_id : Z)
| AdminReply (cfg : Config) (clock : ReplyClock) (payload request_id status_id : Z)
             (subject body : option string) (attachment : option UploadFile).

Definition call (c : Call) (w : World) : World * Outcome :=
  match c with
  | CreateRequest cfg clock form user => create_request cfg clock form user w
  | AssignRequest payload request_id role_id =>
      assign_request payload request_id role_id w
  | ListRequests payload page limit => list_requests payload page limit w
  | GetRequestDetails payload request_id => get_request_details payload request_id w
  | AdminReply cfg clock payload request_id status_id subject body attachment =>
      admin_reply cfg clock payload request_id status_id subject body attachment w
  end.

(** Sequential execution: each call runs on the world the previous one left. *)
Fixpoint run (cs : list Call) (w : World) : World :=
  match cs with
  | [] => w
  | c :: rest => run rest (call c w).1
  end.

(** ** Invariant of the Request table *)

(** The sequence part of a request number: the digits after its last dash. *)
Definition number_seq (number : string) : option Z :=
  let tail := List.last (Py.split "-" number) "" in
  if Py.isdigit tail then Some (Py.int tail) else None.

(** The sequence of the row [id] is at most [id] and above every lower key. *)
Definition seq_ok (reqs : list (Z * Request.t)) (e : Z * Request.t) : bool :=
  match number_seq (Request.RequestNumber e.2) with
  | Some s =>
      (s <=? e.1) && forallb (fun e' => (e.1 <=? e'.1) || (e'.1 <? s)) reqs
  | None => false
  end.

(** What the storage engine and the handlers maintain: identity values start
    at 1 and every key, also in the association tables, was handed out
    before; request numbers follow the order of the keys. *)
Definition db_wfb (d : DB) : bool :=
  (1 <=? Requests_identity d)
  && forallb (fun e : Z * Request.t =>
                (1 <=? e.1) && (e.1 <? Requests_identity d))
             (map_to_list (Requests d))
  && forallb (seq_ok (map_to_list (Requests d))) (map_to_list (Requests d))
  && forallb (fun row : Z * Z => row.1 <? Requests_identity d)
             (Request_RequestInformation d)
  && forallb (fun row : Z * Z => row.1 <? Requests_identity d)
             (Request_Format d).

Definition db_wf (d : DB) : Prop := db_wfb d = true.

(** The same order of request numbers, as a proposition. *)
Definition numbered (reqs : gmap Z Request.t) : Prop :=
  forall id r, reqs !! id = Some r ->
    exists s, number_seq (Request.RequestNumber r) = Some s
              /\ s <= id
              /\ forall id' r', reqs !! id' = Some r' -> id' < id -> id' < s.

(** ** The claims of the specification that the code does not meet, in the
    specification's words *)

Definition succeeded (o : Outcome) : Prop :=
  exists body, o = Returned body /\ dict_get "success" body = Some (JBool true).








(** A ProjectionId that is neither zero nor absent and has no Projection row. *)
Definition unresolved_projection (d : DB) (p : option Z) : Prop :=
  exists k, p = Some k /\ k <> 0 /\ Projections d !! k = None.


(** A token of a comma-separated list: any text without a comma. *)
Definition comma_free (t : string) : bool :=
  Py.all_chars (fun c => negb (Ascii.eqb c ",")) t.

Definition numeric (t : string) : bool := Py.isdigit (Py.strip t).

(** ** Sample data *)

Module Sample.

Definition cfg : Config := mkConfig "uploads/requests" "uploads/reply" "portal@example.org".

Definition t0 : datetime := mkDatetime 2025 1 1 9 5 0 0.
Definition t1 : datetime := mkDatetime 2025 1 1 10 0 0 0.

Definition admin : User.t := User.mk (Some 1) (Some "admin@example.org") (Some "Ann").
Definition staff : User.t := User.mk (Some 2) (Some "staff@example.org") (Some "Sam").
Definition silent : User.t := User.mk (Some 3) None (Some "Bob").

Definition db0 : DB :=
  mkDB ∅ 1 ∅ 1 ∅ 1 [] []
       (<[1 := admin]> (<[2 := staff]> (<[3 := silent]> ∅)))
       (<[7 := Lookup.mk (Some "Submitted") (Some "مقدم")]>
          (<[9 := Lookup.mk (Some "Closed") (Some "مغلق")]> ∅))
       (<[8 := Lookup.mk (Some "Data request") None]> ∅)
       (<[1 := Lookup.mk (Some "UTM 38N") None]> ∅)
       ∅
       (<[1 := Lookup.mk (Some "Maps") None]>
          (<[2 := Lookup.mk (Some "Reports") None]> ∅))
       (<[4 := Lookup.mk (Some "PDF") None]> ∅).

Definition w0 : World := mkWorld db0 [] [].

Definition clock : CreateClock := mkCreateClock t0 t0 t0 t0.
Definition reply_clock : ReplyClock := mkReplyClock t1 t1 t1.

Definition data_form : CreateForm.t :=
  CreateForm.mk 8 None (Some "Tiles") (Some "Please send") (Some "Riyadh Block A")
    None None (Some 1) None None None None
    (Some "1,2,3") (Some "4,5") None.


Definition plain_form : CreateForm.t :=
  CreateForm.mk 1 None (Some "Broken link") None None None None (Some 1)
    None None None None (Some "1, x,1,,2") None None.

(** One data request by the user without an email on file. *)
Definition w1 : World := (create_request cfg clock data_form (3, silent) w0).1.

End Sample.

(** ** The personal queue ([assigned_requests] of [app/routers/admin.py]) *)

(** A row of the queue: the dict of [list_requests] without the role. *)
Definition queue_row (d : DB) (e : Z * Request.t) : Json :=
  let req := e.2 in
  let status := outer (Request.StatusId req) (Statuses d) in
  let category := outer (Request.CategoryId req) (Categories d) in
  let user := outer (Request.UserId req) (Users d) in
  JDict [ ("id", JInt e.1);
          ("number", JStr (Request.RequestNumber req));
          ("created_at", JTime (Request.CreatedAt req));
          ("status_name_en", opt_str (status ≫= Lookup.Name));
          ("status_name_ar", opt_str (status ≫= Lookup.Name_Ar));
          ("type_name_en", opt_str (category ≫= Lookup.Name));
          ("type_name_ar", opt_str (category ≫= Lookup.Name_Ar));
          ("user_email", opt_str (user ≫= User.Email));
          ("subject", opt_str (Request.Subject req));
          ("body", opt_str (Request.Body req)) ].

(** [filter(Request.AssignedRoleId == user.RoleID)]: the comparison with a
    role is false on an unassigned request, the comparison with [None] is
    the test for an unassigned request.  The query has no [order_by]; the
    rows come in primary-key order. *)
Definition queue (role : option Z) (d : DB) : list (Z * Request.t) :=
  filter (fun e => Request.AssignedRoleId e.2 = role) (rows (Requests d)).

Definition assigned_requests (payload : Z) (w : World) : World * Outcome :=
  match get_current_user payload (db w) with
  | inl e => (w, e)
  | inr user =>
      let requests := queue (User.RoleID user.2) (db w) in
      (w, Returned (success_response "Assigned requests fetched successfully"
                      (Some "تم جلب الطلبات المخصصة بنجاح")
                      (JDict [("requests",
                               JList (map (queue_row (db w)) requests))])))
  end.

(** ** Further invariants of the storage engine *)

(** Every key of the Reply table was handed out before. *)
Definition replies_wfb (d : DB) : bool :=
  forallb (fun e : Z * Reply.t => e.1 <? Replies_identity d)
          (map_to_list (Replies d)).

(** Every RequestData row belongs to a request created before. *)
Definition data_wfb (d : DB) : bool :=
  forallb (fun e : Z * RequestData.t =>
             RequestData.RequestId e.2 <? Requests_identity d)
          (map_to_list (RequestDatas d)).


(** The clock fields of a timestamp are not negative. *)
Definition datetime_ok (t : datetime) : Prop :=
  0 <= year t /\ 0 <= month t /\ 0 <= day t
  /\ 0 <= hour t /\ 0 <= minute t /\ 0 <= second t.

Definition slash_free (s : string) : bool :=
  Py.all_chars (fun c => negb (Ascii.eqb c "/")) s.

(** The names under which [admin_reply] and [create_request] store an
    uploaded file. *)
Definition reply_file_name (clock : ReplyClock) (a : UploadFile) : string :=
  strftime_YmdHMS (utcnow_file clock) +:+ "_"
    +:+ Py.replace " " "_" (Py.basename (filename a)).

Definition request_file_name (clock : CreateClock) (a : UploadFile) : string :=
  strftime_YmdHMS (utcnow_attach clock) +:+ "_"
    +:+ Py.replace " " "_" (filename a).

(** The projection id after step 3 of [create_request]: the blank value 0
    becomes "no projection". *)
Definition normalised (ProjectionId : option Z) : option Z :=
  match ProjectionId with
  | Some p => if p =? 0 then None else Some p
  | None => None
  end.

(** To whom a scheduled mail goes, under which subject, and the stored file
    it carries. *)
Definition recipient (t : Task) : option string :=
  match t with
  | send_email _ _ to => to
  | send_email_with_attachment _ _ to _ => to
  | send_reply_email _ _ to => to
  end.

Definition mail_subject (t : Task) : string :=
  match t with
  | send_email subject _ _ => subject
  | send_email_with_attachment subject _ _ _ => subject
  | send_reply_email subject _ _ => subject
  end.

Definition attached (t : Task) : option string :=
  match t with
  | send_email_with_attachment _ _ _ path => Some path
  | _ => None
  end.

(** Referential integrity: every RequestData row, every reply and every
    association row names a request that is in the Request table. *)
Definition has_request (d : DB) (id : Z) : bool :=
  match Requests d !! id with Some _ => true | None => false end.

Definition linkedb (d : DB) : bool :=
  forallb (fun e : Z * RequestData.t => has_request d (RequestData.RequestId e.2))
          (map_to_list (RequestDatas d))
  && forallb (fun e : Z * Reply.t => has_request d (Reply.RequestId e.2))
             (map_to_list (Replies d))
  && forallb (fun row : Z * Z => has_request d row.1)
             (Request_RequestInformation d)
  && forallb (fun row : Z * Z => has_request d row.1) (Request_Format d).

Definition space_free (s : string) : bool :=
  Py.all_chars (fun c => negb (Ascii.eqb c " ")) s.

(** ** More sample data *)

Module Sample2.

Definition upload : UploadFile := mkUpload "site plan.pdf" "%PDF-1.4".

Definition nested_upload : UploadFile := mkUpload "docs/2025/final answer.pdf" "%PDF-1.4".



(** A data request whose projection id is the blank value 0. *)
Definition blank_projection_form : CreateForm.t :=
  CreateForm.mk 8 None (Some "Tiles") None (Some "Riyadh Block A")
    (Some "24.9,46.5") None (Some 0) None None None None None None None.

(** After [Sample.w1]: a second request, by the staff user. *)
Definition w2 : World :=
  (create_request Sample.cfg Sample.clock Sample.plain_form (2, Sample.staff)
     Sample.w1).1.

(** Request 1 assigned to role 2. *)
Definition w3 : World := (assign_request 1 1 2 w2).1.

End Sample2.

(** * Properties *)

(** ** Worked values of the text primitives *)

Example str_examples :
  Py.str 1 = "1" /\ Py.str 42 = "42" /\ Py.str 0 = "0" /\ Py.str (-5) = "-5".
Proof. repeat split; reflexivity. Qed.

Example zfill_examples :
  Py.zfill 4 "1" = "0001" /\ Py.zfill 4 "12345" = "12345"
  /\ Py.zfill 4 "-5" = "-005" /\ Py.zfill 2 "" = "00".
Proof. repeat split; reflexivity. Qed.

Example split_examples :
  Py.split "," "1,2,3" = ["1"; "2"; "3"] /\ Py.split "," "" = [""]
  /\ Py.split "," ",a," = [""; "a"; ""].
Proof. repeat split; reflexivity. Qed.

Example strip_examples :
  Py.strip "  12 " = "12" /\ Py.strip "1 2" = "1 2" /\ Py.strip "   " = "".
Proof. repeat split; reflexivity. Qed.

Example strftime_example :
  strftime_YmdHMS (mkDatetime 2025 1 1 9 5 0 0) = "20250101090500".
Proof. reflexivity. Qed.

Example parse_list_examples :
  parse_list (Some "1,2,3") = [1; 2; 3]
  /\ parse_list (Some "4,5") = [4; 5]
  /\ parse_list (Some "1, x,1,,2") = [1; 1; 2]
  /\ parse_list (Some "a,-3,2.5,07") = [7]
  /\ parse_list (Some "") = [] /\ parse_list None = [].
Proof. repeat split; reflexivity. Qed.

Example first_request_number :
  request_number_of Sample.t0 (next_number Sample.db0) = "RQ-20250101-0001".
Proof. reflexivity. Qed.

(** The date of the number is read from the local clock ([datetime.now()]),
    the CreatedAt stamp from [datetime.utcnow()]: late in the evening of a
    server west of Greenwich the two fall on different days. *)
Example request_number_local_date :
  let clock := mkCreateClock (mkDatetime 2025 1 2 1 30 0 0)
                 (mkDatetime 2025 1 1 22 30 0 0)
                 (mkDatetime 2025 1 2 1 30 0 0) (mkDatetime 2025 1 2 1 30 0 0) in
  let w' := (create_request Sample.cfg clock Sample.plain_form
               (2, Sample.staff) Sample.w0).1 in
  (Request.RequestNumber <$> Requests (db w') !! 1) = Some "RQ-20250101-0001"
  /\ (strftime_Ymd <$> (Request.CreatedAt <$> Requests (db w') !! 1))
     = Some "20250102".
Proof. split; reflexivity. Qed.

(** ** Text lemmas *)

Section Text.

Lemma append_nil_l (s : string) : "" +:+ s = s.
Proof. reflexivity. Qed.

Lemma append_cons c (a b : string) : String c a +:+ b = String c (a +:+ b).
Proof. reflexivity. Qed.

Ltac sapp := rewrite ?append_cons, ?append_nil_l; simpl.

Lemma append_nil_r (s : string) : s +:+ "" = s.
Proof. induction s as [|c s IH]; sapp; [done | by rewrite IH]. Qed.

Lemma append_assoc (a b c : string) : (a +:+ b) +:+ c = a +:+ (b +:+ c).
Proof. induction a as [|x a IH]; sapp; [done | by rewrite IH]. Qed.

Lemma split_nonempty sep s : Py.split sep s <> [].
Proof.
  destruct s as [|c r]; simpl; [done |].
  destruct (Ascii.eqb c sep); [done |].
  destruct (Py.split sep r); done.
Qed.

(** Splitting distributes over a separator placed between two texts. *)
Lemma split_app sep p t :
  Py.split sep (p +:+ String sep t) = Py.split sep p ++ Py.split sep t.
Proof.
  induction p as [|c p IH]; sapp.
  - by rewrite Ascii.eqb_refl.
  - destruct (Ascii.eqb c sep); [by rewrite IH |].
    rewrite IH. pose proof (split_nonempty sep p) as Hne.
    destruct (Py.split sep p); done.
Qed.

Lemma split_without sep t :
  Py.all_chars (fun c => negb (Ascii.eqb c sep)) t = true -> Py.split sep t = [t].
Proof.
  induction t as [|c t IH]; simpl; [done |].
  intros [Hc Ht]%andb_true_iff. apply negb_true_iff in Hc. rewrite Hc.
  by rewrite (IH Ht).
Qed.

Lemma split_join sep (tokens : list string) :
  Forall (fun t => Py.all_chars (fun c => negb (Ascii.eqb c sep)) t = true) tokens ->
  tokens <> [] ->
  Py.split sep (Py.join sep tokens) = tokens.
Proof.
  induction 1 as [|t rest Ht Hrest IH]; [done |]. intros _.
  destruct rest as [|t' rest'].
  - simpl. by apply split_without.
  - change (Py.join sep (t :: t' :: rest'))
      with (t +:+ String sep (Py.join sep (t' :: rest'))).
    rewrite split_app, (split_without _ _ Ht), IH; done.
Qed.

Lemma join_split sep s : Py.join sep (Py.split sep s) = s.
Proof.
  induction s as [|c r IH]; simpl; [done |].
  pose proof (split_nonempty sep r) as Hne.
  destruct (Ascii.eqb_spec c sep) as [->|Hc].
  - destruct (Py.split sep r) as [|h t]; [done |].
    change (Py.join sep ("" :: h :: t)) with ("" +:+ String sep (Py.join sep (h :: t))).
    by rewrite append_nil_l, IH.
  - destruct (Py.split sep r) as [|h [|t1 t]]; [done | |].
    + simpl in *. by rewrite IH.
    + change (Py.join sep (String c h :: t1 :: t))
        with (String c h +:+ String sep (Py.join sep (t1 :: t))).
      rewrite append_cons. f_equal. exact IH.
Qed.

Lemma split_free sep s :
  Forall (fun t => Py.all_chars (fun c => negb (Ascii.eqb c sep)) t = true)
         (Py.split sep s).
Proof.
  induction s as [|c r IH]; simpl; [by repeat constructor |].
  destruct (Ascii.eqb c sep) eqn:Hc; [by constructor |].
  destruct (Py.split sep r) as [|h t]; [by repeat constructor; simpl; rewrite Hc |].
  apply Forall_cons in IH as [Hh Ht]. constructor; [|done]. simpl. by rewrite Hc, Hh.
Qed.

Lemma all_chars_app p a b :
  Py.all_chars p (a +:+ b) = (Py.all_chars p a && Py.all_chars p b)%bool.
Proof. induction a as [|c a IH]; sapp; [done | by rewrite IH, andb_assoc]. Qed.

Lemma all_chars_zeros k : Py.all_chars Py.is_digit (Py.zeros k) = true.
Proof. induction k; simpl; auto. Qed.

Lemma int_acc_zeros k s : Py.int_acc (Py.zeros k +:+ s) 0 = Py.int_acc s 0.
Proof. induction k; sapp; auto. Qed.

Lemma digits_of_uint d :
  Py.all_chars Py.is_digit (NilEmpty.string_of_uint d) = true.
Proof. induction d; simpl; auto. Qed.

Ltac digit_values :=
  unfold Py.digit_value;
  repeat match goal with
  | |- context [Z.of_nat (nat_of_ascii ?c)] =>
      let v := eval vm_compute in (Z.of_nat (nat_of_ascii c)) in
      change (Z.of_nat (nat_of_ascii c)) with v
  end.

Lemma int_acc_pos d (acc : positive) :
  Py.int_acc (NilEmpty.string_of_uint d) (Z.pos acc)
  = Z.pos (Pos.of_uint_acc d acc).
Proof.
  revert acc. induction d; intros acc; simpl; try done; digit_values;
    match goal with
    | |- Py.int_acc _ ?z = Z.pos (Pos.of_uint_acc _ ?q) =>
        replace z with (Z.pos q) by lia
    end; apply IHd.
Qed.

Lemma int_acc_zero d :
  Py.int_acc (NilEmpty.string_of_uint d) 0 = Z.of_N (Pos.of_uint d).
Proof.
  induction d; simpl; try done; digit_values; simpl;
    try apply IHd; apply int_acc_pos.
Qed.

Lemma all_chars_impl (p q : ascii -> bool) s :
  (forall c, p c = true -> q c = true) ->
  Py.all_chars p s = true -> Py.all_chars q s = true.
Proof.
  intros Hpq. induction s as [|c s IH]; simpl; [done |].
  intros [Hc Hs]%andb_true_iff. rewrite (Hpq _ Hc). auto.
Qed.

Lemma digit_not_sign c sign :
  Py.is_digit sign = false -> Py.is_digit c = true -> Ascii.eqb c sign = false.
Proof.
  intros Hs Hc. destruct (Ascii.eqb c sign) eqn:E; [|done].
  apply Ascii.eqb_eq in E. congruence.
Qed.

(** The decimal digits of a natural number, as [str] prints them. *)
Lemma str_nonneg n :
  0 <= n ->
  exists d, Py.str n = NilEmpty.string_of_uint d
            /\ d <> Decimal.Nil /\ Z.of_N (Pos.of_uint d) = n.
Proof.
  intros Hn. destruct n as [|p|p]; [| |lia].
  - exists (Decimal.D0 Decimal.Nil). done.
  - exists (Pos.to_uint p). pose proof (DecimalPos.Unsigned.to_uint_nonnil p) as Hnn.
    split; [|split; [done |]].
    + unfold Py.str. simpl. unfold NilZero.string_of_uint.
      destruct (Pos.to_uint p); done.
    + by rewrite DecimalPos.Unsigned.of_to.
Qed.

Lemma str_digits n : 0 <= n -> Py.all_chars Py.is_digit (Py.str n) = true.
Proof. intros (d & -> & _)%str_nonneg. apply digits_of_uint. Qed.

Lemma str_not_empty n : 0 <= n -> Py.str n <> "".
Proof.
  intros (d & -> & Hd & _)%str_nonneg. destruct d; done.
Qed.

Lemma int_str n : 0 <= n -> Py.int (Py.str n) = n.
Proof.
  intros (d & -> & _ & <-)%str_nonneg. apply int_acc_zero.
Qed.

Lemma zfill_digits width s :
  Py.all_chars Py.is_digit s = true ->
  Py.zfill width s = Py.zeros (width - String.length s) +:+ s.
Proof.
  destruct s as [|c r]; simpl.
  - intros _. unfold Py.zfill. by rewrite append_nil_r.
  - intros [Hc _]%andb_true_iff. unfold Py.zfill.
    rewrite (digit_not_sign c "+"), (digit_not_sign c "-"); done.
Qed.

Lemma zfill_str_digits width n :
  0 <= n -> Py.all_chars Py.is_digit (Py.zfill width (Py.str n)) = true.
Proof.
  intros Hn. rewrite zfill_digits by by apply str_digits.
  by rewrite all_chars_app, all_chars_zeros, str_digits.
Qed.

Lemma zfill_str_not_empty width n : 0 <= n -> Py.zfill width (Py.str n) <> "".
Proof.
  intros Hn. rewrite zfill_digits by by apply str_digits.
  pose proof (str_not_empty n Hn).
  destruct (Py.zeros _); [by rewrite append_nil_l | done].
Qed.

Lemma int_zfill_str width n : 0 <= n -> Py.int (Py.zfill width (Py.str n)) = n.
Proof.
  intros Hn. rewrite zfill_digits by by apply str_digits.
  unfold Py.int. rewrite int_acc_zeros. by apply int_str.
Qed.

Lemma isdigit_zfill_str width n :
  0 <= n -> Py.isdigit (Py.zfill width (Py.str n)) = true.
Proof.
  intros Hn. pose proof (zfill_str_not_empty width n Hn).
  pose proof (zfill_str_digits width n Hn).
  unfold Py.isdigit. destruct (Py.zfill width (Py.str n)); done.
Qed.

Lemma last_app_singleton {A} (l : list A) x d : List.last (l ++ [x]) d = x.
Proof. induction l as [|a [|b l] IH]; simpl in *; done. Qed.

(** The sequence can be read back from a request number. *)
Lemma number_seq_request_number today n :
  0 <= n -> number_seq (request_number_of today n) = Some n.
Proof.
  intros Hn. unfold number_seq.
  replace (request_number_of today n)
    with (("RQ-" +:+ strftime_Ymd today) +:+ String "-" (Py.zfill 4 (Py.str n)))
    by (unfold request_number_of; by rewrite append_assoc).
  rewrite split_app.
  rewrite (split_without "-" (Py.zfill 4 (Py.str n))).
  - rewrite last_app_singleton, isdigit_zfill_str, int_zfill_str; done.
  - eapply all_chars_impl; [|by apply zfill_str_digits].
    intros c Hc. by rewrite (digit_not_sign c "-").
Qed.

End Text.

(** ** Keys of a table *)

Section Keys.
Context {A : Type}.
Implicit Types (m : gmap Z A) (l : list Z).

Lemma max_of_Some l k :
  max_of l = Some k -> k ∈ l /\ forall j, j ∈ l -> j <= k.
Proof.
  revert k. induction l as [|x l IH]; intros k; simpl; [done |].
  destruct (max_of l) as [a|] eqn:E; intros [= <-].
  - destruct (IH a eq_refl) as [Ha Hmax]. split.
    + destruct (Z.max_spec x a) as [[_ ->]|[_ ->]]; set_solver.
    + intros j [->|Hj]%elem_of_cons; [lia |]. specialize (Hmax j Hj). lia.
  - destruct l as [|y l']; [|done]. split; [set_solver |].
    intros j Hj. apply list_elem_of_singleton in Hj. lia.
Qed.

Lemma max_of_None l : max_of l = None -> l = [].
Proof. destruct l; [done | simpl; by destruct (max_of l)]. Qed.

Lemma elem_of_keys m k : k ∈ (map_to_list m).*1 <-> is_Some (m !! k).
Proof.
  rewrite list_elem_of_fmap. split.
  - intros ([k' x] & -> & Hin). apply elem_of_map_to_list in Hin. eauto.
  - intros [x Hx]. exists (k, x). split; [done |]. by apply elem_of_map_to_list.
Qed.

(** [last_id] is the greatest key of the table. *)
Lemma last_id_Some m k :
  last_id m = Some k ->
  is_Some (m !! k) /\ forall j, is_Some (m !! j) -> j <= k.
Proof.
  intros [Hk Hmax]%max_of_Some. split; [by apply elem_of_keys |].
  intros j Hj. by apply Hmax, elem_of_keys.
Qed.

Lemma last_id_None m : last_id m = None -> m = ∅.
Proof.
  intros H%max_of_None. apply fmap_nil_inv in H. by apply map_to_list_empty_iff.
Qed.

End Keys.

(** ** The invariant, spelled out *)

Lemma seq_ok_spec (reqs : gmap Z Request.t) id r :
  seq_ok (map_to_list reqs) (id, r) = true <->
  exists s, number_seq (Request.RequestNumber r) = Some s
            /\ s <= id
            /\ forall id' r', reqs !! id' = Some r' -> id' < id -> id' < s.
Proof.
  unfold seq_ok. simpl. destruct (number_seq _) as [s|]; [|naive_solver].
  rewrite andb_true_iff, Z.leb_le, forallb_forall. split.
  - intros [Hs Hall]. exists s. split; [done |]. split; [done |].
    intros id' r' Hr' Hlt.
    specialize (Hall (id', r')). rewrite <- list_elem_of_In in Hall.
    specialize (Hall (proj2 (elem_of_map_to_list _ _ _) Hr')). simpl in Hall.
    apply orb_true_iff in Hall as [H%Z.leb_le|H%Z.ltb_lt]; lia.
  - intros (s' & [= <-] & Hs & Hall). split; [done |].
    intros [id' r'] Hin%list_elem_of_In%elem_of_map_to_list. simpl.
    apply orb_true_iff. destruct (decide (id <= id')); [left; lia | right].
    apply Z.ltb_lt. eapply Hall; [done | lia].
Qed.

Lemma db_wf_spec d :
  db_wf d <->
  1 <= Requests_identity d
  /\ (forall id r, Requests d !! id = Some r -> 1 <= id < Requests_identity d)
  /\ numbered (Requests d)
  /\ Forall (fun row => row.1 < Requests_identity d) (Request_RequestInformation d)
  /\ Forall (fun row => row.1 < Requests_identity d) (Request_Format d).
Proof.
  unfold db_wf, db_wfb. rewrite !andb_true_iff, Z.leb_le, !forallb_forall.
  rewrite !Forall_forall.
  split.
  - intros ((((H1 & H2) & H3) & H4) & H5). repeat split.
    + done.
    + specialize (H2 (id, r)). rewrite <- list_elem_of_In in H2.
      apply elem_of_map_to_list in H. specialize (H2 H). simpl in H2. lia.
    + specialize (H2 (id, r)). rewrite <- list_elem_of_In in H2.
      apply elem_of_map_to_list in H. specialize (H2 H). simpl in H2. lia.
    + intros id r Hr. apply seq_ok_spec, H3, list_elem_of_In.
      by apply elem_of_map_to_list.
    + intros row Hrow%list_elem_of_In. specialize (H4 row Hrow). lia.
    + intros row Hrow%list_elem_of_In. specialize (H5 row Hrow). lia.
  - intros (H1 & H2 & H3 & H4 & H5). repeat split.
    + done.
    + intros [id r] Hin%list_elem_of_In%elem_of_map_to_list.
      specialize (H2 id r Hin). simpl. lia.
    + intros [id r] Hin%list_elem_of_In%elem_of_map_to_list.
      by apply seq_ok_spec, H3.
    + intros row Hrow%list_elem_of_In. specialize (H4 row Hrow). lia.
    + intros row Hrow%list_elem_of_In. specialize (H5 row Hrow). lia.
Qed.

(** A database without requests whose identity has not run yet. *)
Lemma db_wf_fresh d :
  Requests d = ∅ -> Request_RequestInformation d = [] -> Request_Format d = [] ->
  1 <= Requests_identity d -> db_wf d.
Proof.
  intros Hr Hi Hf H1. unfold db_wf, db_wfb.
  rewrite Hr, Hi, Hf, map_to_list_empty. simpl.
  rewrite !andb_true_r. by apply Z.leb_le.
Qed.

(** Under the invariant no two rows carry the same request number. *)
Lemma numbered_unique reqs id1 id2 r1 r2 :
  numbered reqs ->
  reqs !! id1 = Some r1 -> reqs !! id2 = Some r2 ->
  Request.RequestNumber r1 = Request.RequestNumber r2 -> id1 = id2.
Proof.
  intros Hn H1 H2 Heq.
  destruct (Hn id1 r1 H1) as (s1 & Hs1 & Hle1 & Hlow1).
  destruct (Hn id2 r2 H2) as (s2 & Hs2 & Hle2 & Hlow2).
  rewrite Heq, Hs2 in Hs1. injection Hs1 as <-.
  destruct (Z.lt_trichotomy id1 id2) as [Hlt|[->|Hlt]]; [|done|].
  - specialize (Hlow2 id1 r1 H1 Hlt). lia.
  - specialize (Hlow1 id2 r2 H2 Hlt). lia.
Qed.

(** ** Request creation *)

(** The row written by step 4 of [create_request]. *)
Lemma create_request_accepted cfg clock form user w p :
  validate_projection (db w) (CreateForm.ProjectionId form) = Some p ->
  let id := Requests_identity (db w) in
  let number := request_number_of (now_number clock) (next_number (db w)) in
  let w' := (create_request cfg clock form user w).1 in
  exists attach_rel row,
    Request.RequestNumber row = number
    /\ Requests (db w') = <[id := row]> (Requests (db w))
    /\ Requests_identity (db w') = id + 1
    /\ Request_RequestInformation (db w')
       = Request_RequestInformation (db w)
         ++ map (fun i => (id, i)) (parse_list (CreateForm.RequestInformationIds form))
    /\ Request_Format (db w')
       = Request_Format (db w)
         ++ map (fun i => (id, i)) (parse_list (CreateForm.FormatIds form))
    /\ (create_request cfg clock form user w).2
       = Returned (success_response "Request created successfully"
                     (Some "تم إنشاء الطلب بنجاح")
                     (JDict [ ("request_id", JInt id);
                              ("request_number", JStr number);
                              ("AttachPath", opt_str attach_rel) ])).
Proof.
  intros Hp. unfold create_request. rewrite Hp.
  destruct (CreateForm.attach form) as [a|]; simpl.
  - destruct (CreateForm.CategoryId form =? 8); simpl;
      eexists (Some _), (Request.mk _ _ _ _ _ _ _ _ _ _ _ _ _); repeat split.
  - destruct (CreateForm.CategoryId form =? 8); simpl;
      exists None; eexists (Request.mk _ _ _ _ _ _ _ _ _ _ _ _ _); repeat split.
Qed.

Lemma create_request_refused cfg clock form user w :
  validate_projection (db w) (CreateForm.ProjectionId form) = None ->
  db (create_request cfg clock form user w).1 = db w
  /\ tasks (create_request cfg clock form user w).1 = tasks w
  /\ (create_request cfg clock form user w).2
     = Returned (error_response "Invalid ProjectionId"
                   (Some "معرف الإسقاط غير صالح") None).
Proof.
  intros Hp. unfold create_request. rewrite Hp.
  destruct (CreateForm.attach form); done.
Qed.

Lemma next_number_bounds d :
  db_wf d -> 1 <= next_number d <= Requests_identity d
             /\ forall id r, Requests d !! id = Some r -> id < next_number d.
Proof.
  intros (H1 & Hkeys & _)%db_wf_spec. unfold next_number.
  destruct (last_id (Requests d)) as [k|] eqn:E.
  - apply last_id_Some in E as [[r Hr] Hmax].
    specialize (Hkeys k r Hr). split; [lia |].
    intros id r' Hr'. specialize (Hmax id (ex_intro _ r' Hr')). lia.
  - apply last_id_None in E. rewrite E. split; [lia |].
    intros id r. by rewrite lookup_empty.
Qed.

(** The invariant survives a creation. *)
Lemma create_request_wf cfg clock form user w :
  db_wf (db w) -> db_wf (db (create_request cfg clock form user w).1).
Proof.
  intros Hwf.
  destruct (validate_projection (db w) (CreateForm.ProjectionId form)) as [p|] eqn:Hp.
  2:{ by rewrite (proj1 (create_request_refused cfg clock form user w Hp)). }
  destruct (create_request_accepted cfg clock form user w p Hp)
    as (attach_rel & row & Hnum & Hreqs & Hid & Hri & Hf & _).
  destruct (next_number_bounds _ Hwf) as [Hnext Hfresh].
  apply db_wf_spec in Hwf as (H1 & Hkeys & Hnumd & Hinfo & Hfmt).
  apply db_wf_spec. rewrite Hreqs, Hid, Hri, Hf.
  split; [lia |]. split; [|split; [|split]].
  - intros id r [[<- <-]|[Hne Hr]]%lookup_insert_Some; [lia |].
    specialize (Hkeys id r Hr). lia.
  - intros id r [[<- <-]|[Hne Hr]]%lookup_insert_Some.
    + exists (next_number (db w)). rewrite Hnum.
      split; [apply number_seq_request_number; lia |]. split; [lia |].
      intros id' r' [[<- <-]|[Hne' Hr']]%lookup_insert_Some Hlt; [lia |].
      by eapply Hfresh.
    + destruct (Hnumd id r Hr) as (s & Hs & Hle & Hlow). exists s.
      split; [done |]. split; [done |].
      intros id' r' [[<- <-]|[Hne' Hr']]%lookup_insert_Some Hlt.
      * specialize (Hkeys id r Hr). lia.
      * by eapply Hlow.
  - apply Forall_app. split.
    + eapply Forall_impl; [exact Hinfo | simpl; intros; lia].
    + apply Forall_fmap, Forall_true. simpl. intros; lia.
  - apply Forall_app. split.
    + eapply Forall_impl; [exact Hfmt | simpl; intros; lia].
    + apply Forall_fmap, Forall_true. simpl. intros; lia.
Qed.



(** ** Validation of the projection *)

Lemma validate_projection_None d p :
  validate_projection d p = None <-> unresolved_projection d p.
Proof.
  unfold validate_projection, unresolved_projection, Py.truthy.
  destruct p as [k|]; [|naive_solver].
  destruct (Z.eqb_spec k 0) as [->|Hk]; simpl; [naive_solver |].
  case_bool_decide as Hsome; simpl.
  - split; [done |]. intros (k' & [= <-] & _ & Hnone).
    rewrite Hnone in Hsome. by destruct Hsome.
  - split; [|done]. intros _. exists k. split; [done |]. split; [done |].
    by apply eq_None_not_Some.
Qed.




(** ** The response envelope *)

(** C9. Without an Arabic message (absent or empty) [message_ar] is the
    English message; a success envelope carries [data] and no [error_code],
    an error envelope carries [error_code] and no [data]. *)
Theorem envelope_fallback message_en message_ar data error_code :
  dict_get "message_ar" (success_response message_en None data)
  = Some (JStr message_en)
  /\ dict_get "message_ar" (error_response message_en None error_code)
     = Some (JStr message_en)
  /\ dict_get "message_ar" (success_response message_en (Some "") data)
     = Some (JStr message_en)
  /\ dict_get "message_ar" (error_response message_en (Some "") error_code)
     = Some (JStr message_en)
  /\ dict_get "message" (success_response message_en message_ar data)
     = Some (JStr message_en)
  /\ dict_get "message" (error_response message_en message_ar error_code)
     = Some (JStr message_en)
  /\ keys (success_response message_en message_ar data)
     = ["success"; "message"; "message_ar"; "data"]
  /\ dict_get "success" (success_response message_en message_ar data)
     = Some (JBool true)
  /\ dict_get "data" (success_response message_en message_ar data) = Some data
  /\ dict_get "error_code" (success_response message_en message_ar data) = None
  /\ keys (error_response message_en message_ar error_code)
     = ["success"; "message"; "message_ar"; "error_code"]
  /\ dict_get "success" (error_response message_en message_ar error_code)
     = Some (JBool false)
  /\ dict_get "error_code" (error_response message_en message_ar error_code)
     = Some (opt_str error_code)
  /\ dict_get "data" (error_response message_en message_ar error_code) = None.
Proof. repeat split. Qed.

(** A supplied Arabic message is kept. *)
Lemma envelope_arabic_kept message_en c rest data :
  dict_get "message_ar" (success_response message_en (Some (String c rest)) data)
  = Some (JStr (String c rest)).
Proof. reflexivity. Qed.

(** ** Role assignment *)

Lemma assign_request_found payload request_id role_id w admin req :
  require_admin payload (db w) = inr admin ->
  Requests (db w) !! request_id = Some req ->
  assign_request payload request_id role_id w
  = (mkWorld
       (set_requests
          (<[request_id := with_AssignedRoleId (Some role_id) req]> (Requests (db w)))
          (db w))
       (files w) (tasks w),
     Returned (success_response "Request assigned successfully"
                 (Some "تم تعيين الطلب بنجاح")
                 (JDict [("request_id", JInt request_id)]))).
Proof. intros Hadm Hreq. unfold assign_request. by rewrite Hadm, Hreq. Qed.

Lemma assign_request_unchanged payload request_id role_id w :
  (forall admin, require_admin payload (db w) <> inr admin)
  \/ Requests (db w) !! request_id = None ->
  (assign_request payload request_id role_id w).1 = w.
Proof.
  unfold assign_request.
  destruct (require_admin payload (db w)) as [e|admin]; [done |].
  intros [H|H]; [by destruct (H admin) | by rewrite H].
Qed.

(** C6. Assigning the same role a second time changes nothing: the world
    after two assignments is the world after one, and the second call answers
    as the first. *)
Theorem assign_request_idempotent payload request_id role_id w :
  assign_request payload request_id role_id
    (assign_request payload request_id role_id w).1
  = assign_request payload request_id role_id w.
Proof.
  destruct (require_admin payload (db w)) as [e|admin] eqn:Hadm.
  { unfold assign_request. rewrite Hadm. simpl. by rewrite Hadm. }
  destruct (Requests (db w) !! request_id) as [req|] eqn:Hreq.
  2:{ unfold assign_request. rewrite Hadm, Hreq. simpl. by rewrite Hadm, Hreq. }
  rewrite (assign_request_found _ _ _ _ _ _ Hadm Hreq). simpl.
  erewrite assign_request_found; [| exact Hadm | simpl; apply lookup_insert_eq].
  simpl. unfold set_requests. simpl. by rewrite insert_insert_eq.
Qed.

(** C10. A role assignment changes the AssignedRoleId of the request and
    nothing else: every other column of the row, every other request, every
    other table, the stored files and the scheduled tasks are as before. *)
Theorem assign_request_frame payload request_id role_id w req :
  Requests (db w) !! request_id = Some req ->
  let w' := (assign_request payload request_id role_id w).1 in
  (exists req',
     Requests (db w') !! request_id = Some req'
     /\ Request.UserId req' = Request.UserId req
     /\ Request.CategoryId req' = Request.CategoryId req
     /\ Request.ComplaintScreenId req' = Request.ComplaintScreenId req
     /\ Request.Subject req' = Request.Subject req
     /\ Request.Body req' = Request.Body req
     /\ Request.RequestNumber req' = Request.RequestNumber req
     /\ Request.StatusId req' = Request.StatusId req
     /\ Request.CreatedAt req' = Request.CreatedAt req
     /\ Request.AttachPath req' = Request.AttachPath req
     /\ Request.CreatedByUserID req' = Request.CreatedByUserID req
     /\ Request.UpdatedAt req' = Request.UpdatedAt req
     /\ Request.UpdatedByUserID req' = Request.UpdatedByUserID req
     /\ (succeeded (assign_request payload request_id role_id w).2 ->
         Request.AssignedRoleId req' = Some role_id))
  /\ (forall id, id <> request_id ->
        Requests (db w') !! id = Requests (db w) !! id)
  /\ Requests_identity (db w') = Requests_identity (db w)
  /\ RequestDatas (db w') = RequestDatas (db w)
  /\ RequestDatas_identity (db w') = RequestDatas_identity (db w)
  /\ Replies (db w') = Replies (db w)
  /\ Replies_identity (db w') = Replies_identity (db w)
  /\ Request_RequestInformation (db w') = Request_RequestInformation (db w)
  /\ Request_Format (db w') = Request_Format (db w)
  /\ Users (db w') = Users (db w)
  /\ Statuses (db w') = Statuses (db w)
  /\ Categories (db w') = Categories (db w)
  /\ Projections (db w') = Projections (db w)
  /\ ComplaintScreens (db w') = ComplaintScreens (db w)
  /\ RequestInformations (db w') = RequestInformations (db w)
  /\ Formats (db w') = Formats (db w)
  /\ files w' = files w
  /\ tasks w' = tasks w.
Proof.
  intros Hreq w'. subst w'.
  destruct (require_admin payload (db w)) as [e|admin] eqn:Hadm.
  - rewrite assign_request_unchanged by (left; congruence).
    split; [|done]. exists req. repeat (split; [done |]).
    unfold assign_request. rewrite Hadm. simpl.
    intros (body & Hbody & Hsucc). unfold require_admin, get_current_user in Hadm.
    destruct (Users (db w) !! payload); [|by injection Hadm as <-].
    destruct (negb _); [by injection Hadm as <- | done].
  - rewrite (assign_request_found _ _ _ _ _ _ Hadm Hreq). simpl.
    split; [|split; [|done]].
    + exists (with_AssignedRoleId (Some role_id) req).
      split; [apply lookup_insert_eq | done].
    + intros id Hne. by apply lookup_insert_ne.
Qed.

Lemma assign_request_frame_witness :
  exists req',
    Requests (db (assign_request 1 1 5 Sample.w1).1) !! 1 = Some req'
    /\ Request.AssignedRoleId req' = Some 5
    /\ Request.RequestNumber req' = "RQ-20250101-0001".
Proof.
  destruct (assign_request_frame 1 1 5 Sample.w1 _ ltac:(vm_compute; reflexivity))
    as [(req' & Hreq' & _ & _ & _ & _ & _ & Hnum & _ & _ & _ & _ & _ & _ & Hrole) _].
  exists req'. split; [exact Hreq' |]. split; [|exact Hnum].
  apply Hrole. eexists. split; [vm_compute; reflexivity | reflexivity].
Defined.

(** ** Replies and the detail view *)

Lemma require_admin_inr payload d a :
  Users d !! payload = Some a -> User.RoleID a = Some 1 ->
  require_admin payload d = inr (payload, a).
Proof.
  intros Hu Hrole. unfold require_admin, get_current_user. rewrite Hu. simpl.
  by rewrite Hrole.
Qed.

Lemma get_request_details_found payload request_id w a req :
  Users (db w) !! payload = Some a -> User.RoleID a = Some 1 ->
  Requests (db w) !! request_id = Some req ->
  get_request_details payload request_id w
  = (w, Returned (success_response "Request details fetched successfully"
                    (Some "تم جلب تفاصيل الطلب بنجاح")
                    (JDict [("request", JDict (details (db w) request_id req))]))).
Proof.
  intros Hu Hrole Hreq. unfold get_request_details.
  by rewrite (require_admin_inr _ _ _ Hu Hrole), Hreq.
Qed.

(** The entries of the detail view that a reply bears on.  The RequestData
    part of the view only adds its own keys and replaces "created_at". *)
Lemma details_entries d request_id req :
  dict_get "status" (details d request_id req)
  = Some (names (resolve (Request.StatusId req) (Statuses d)))
  /\ dict_get "updated_at" (details d request_id req)
     = Some (opt_time (Request.UpdatedAt req))
  /\ dict_get "updated_by" (details d request_id req)
     = Some (opt_int (Request.UpdatedByUserID req))
  /\ dict_get "replies" (details d request_id req)
     = Some (JList (map reply_json (active_replies d request_id))).
Proof.
  unfold details, request_data_details.
  destruct (resolve (Request.CategoryId req) (Categories d)); [|done].
  case_bool_decide; [|done].
  destruct (filter _ (rows (RequestDatas d))) as [|[k rd] rest]; done.
Qed.

Lemma elem_of_rows {A} (m : gmap Z A) k x : (k, x) ∈ rows m <-> m !! k = Some x.
Proof. unfold rows. rewrite merge_sort_Permutation. apply elem_of_map_to_list. Qed.

Lemma elem_of_active_replies d request_id k r :
  (k, r) ∈ active_replies d request_id
  <-> Replies d !! k = Some r /\ Reply.RequestId r = request_id
      /\ Reply.IsDeleted r = Some false.
Proof.
  unfold active_replies. rewrite list_elem_of_filter, elem_of_rows. simpl. tauto.
Qed.


Lemma resolve_Some {A} k (table : gmap Z A) :
  resolve (Some k) table = if k =? 0 then None else table !! k.
Proof. unfold resolve, Py.truthy, outer. by destruct (k =? 0). Qed.





(** ** Tag associations *)

Lemma join_empty sep tokens :
  Py.join sep tokens = "" -> tokens = [] \/ tokens = [""].
Proof.
  destruct tokens as [|t [|t' rest]]; [by left | simpl; intros ->; by right |].
  change (Py.join sep (t :: t' :: rest))
    with (t +:+ String sep (Py.join sep (t' :: rest))).
  destruct t; [rewrite append_nil_l | rewrite append_cons]; done.
Qed.

(** Parsing a comma-separated list keeps, in order and with repetitions,
    the tokens that are numeric once stripped. *)
Lemma parse_list_join v tokens :
  Forall (fun t => comma_free t = true) tokens ->
  default "" v = Py.join "," tokens ->
  parse_list v
  = map (fun t => Py.int (Py.strip t)) (filter (fun t => numeric t = true) tokens).
Proof.
  intros Hfree Hv. unfold parse_list.
  destruct v as [[|c r]|]; simpl in Hv.
  - symmetry in Hv. by destruct (join_empty _ _ Hv) as [-> | ->].
  - rewrite Hv, split_join; [done | done |]. by intros ->.
  - symmetry in Hv. by destruct (join_empty _ _ Hv) as [-> | ->].
Qed.

(** Every text is the join of the comma-free tokens it splits into. *)
Lemma tokens_exist (s : string) :
  exists tokens,
    Forall (fun t => comma_free t = true) tokens /\ s = Py.join "," tokens.
Proof.
  exists (Py.split "," s). split; [apply split_free | by rewrite join_split].
Qed.

Lemma succeeded_accepted cfg clock form user w :
  succeeded (create_request cfg clock form user w).2 ->
  exists p, validate_projection (db w) (CreateForm.ProjectionId form) = Some p.
Proof.
  intros (body & Hbody & Hsucc).
  destruct (validate_projection (db w) (CreateForm.ProjectionId form))
    as [p|] eqn:Hp; [by eexists |].
  destruct (create_request_refused cfg clock form user w Hp) as (_ & _ & Hr).
  rewrite Hr in Hbody. by injection Hbody as <-.
Qed.

Lemma filter_rows_new (id : Z) (old : list (Z * Z)) (ids : list Z) :
  Forall (fun row => row.1 < id) old ->
  filter (fun row : Z * Z => row.1 = id) (old ++ map (fun i => (id, i)) ids)
  = map (fun i => (id, i)) ids.
Proof.
  intros Hold. rewrite filter_app.
  replace (filter (fun row : Z * Z => row.1 = id) old) with (@nil (Z * Z)).
  - simpl. induction ids as [|i ids IH]; [done |]. simpl.
    rewrite filter_cons_True by done. by rewrite IH.
  - symmetry. induction Hold as [|row old Hrow _ IH]; [done |].
    rewrite filter_cons_False by lia. done.
Qed.



(** The same three and two rows come out when the lists also carry blanks,
    words, signed or fractional numbers; a repeated id gives a row each time. *)
Example association_rows_malformed :
  parse_list (Some " 1,x,2,,-7,3 ,2.5") = [1; 2; 3]
  /\ parse_list (Some "4,five,5,") = [4; 5]
  /\ parse_list (Some "1,2,3,3,1") = [1; 2; 3; 3; 1].
Proof. repeat split; reflexivity. Qed.

(** What the detail view lists for a new request: one entry per distinct id
    of the list that has a row in the lookup table. *)
Lemma joined_new table (old : list (Z * Z)) (id : Z) (ids : list Z) :
  Forall (fun row => row.1 < id) old ->
  joined table (old ++ map (fun i => (id, i)) ids) id
  = omap (fun k => table !! k) (remove_dups ids).
Proof.
  intros Hold. unfold joined. rewrite filter_rows_new by done.
  rewrite map_map. simpl. by rewrite map_id.
Qed.

(** ** Listing *)

Lemma lex_leb_total a b : lex_leb a b = true \/ lex_leb b a = true.
Proof.
  revert b. induction a as [|x a IH]; intros [|y b]; simpl; auto.
  destruct (IH b) as [H|H]; rewrite H;
    destruct (Z.ltb_spec x y), (Z.ltb_spec y x), (Z.eqb_spec x y),
      (Z.eqb_spec y x); simpl; auto; lia.
Qed.

Lemma lex_leb_trans a b c :
  lex_leb a b = true -> lex_leb b c = true -> lex_leb a c = true.
Proof.
  revert b c. induction a as [|x a IH]; intros [|y b] [|z c]; simpl; try done.
  intros [Hxy|[Hxy Hab]%andb_true_iff]%orb_true_iff
         [Hyz|[Hyz Hbc]%andb_true_iff]%orb_true_iff;
    apply orb_true_iff;
    repeat match goal with
    | H : (_ <? _) = true |- _ => apply Z.ltb_lt in H
    | H : (_ =? _) = true |- _ => apply Z.eqb_eq in H
    end.
  - left. apply Z.ltb_lt. lia.
  - left. apply Z.ltb_lt. lia.
  - left. apply Z.ltb_lt. lia.
  - right. apply andb_true_iff. split; [apply Z.eqb_eq; lia | by eapply IH].
Qed.

#[global] Instance created_desc_total : Total created_desc.
Proof. intros a b. unfold created_desc. apply lex_leb_total. Qed.

#[global] Instance created_desc_trans : Transitive created_desc.
Proof.
  intros a b c Hab Hbc. unfold created_desc, datetime_leb in *.
  by eapply lex_leb_trans.
Qed.




(** ** Sequential execution keeps the invariant *)

Lemma db_wf_update d request_id req req' :
  db_wf d ->
  Requests d !! request_id = Some req ->
  Request.RequestNumber req' = Request.RequestNumber req ->
  db_wf (set_requests (<[request_id := req']> (Requests d)) d).
Proof.
  intros (H1 & Hkeys & Hnum & Hi & Hf)%db_wf_spec Hreq Hsame.
  apply db_wf_spec. simpl. split; [done |]. split; [|split; [|done]].
  - intros id r [[<- <-]|[_ Hr]]%lookup_insert_Some; eauto.
  - intros id r Hr.
    assert (exists r0, Requests d !! id = Some r0
                       /\ Request.RequestNumber r = Request.RequestNumber r0)
      as (r0 & Hr0 & Hn0).
    { apply lookup_insert_Some in Hr as [[<- <-]|[_ Hr]]; eauto. }
    destruct (Hnum id r0 Hr0) as (s & Hs & Hle & Hlow).
    exists s. rewrite Hn0. split; [done |]. split; [done |].
    intros id' r' [[<- <-]|[_ Hr']]%lookup_insert_Some Hlt; eauto.
Qed.

Lemma call_wf c w : db_wf (db w) -> db_wf (db (call c w).1).
Proof.
  intros Hwf. destruct c; simpl.
  - by apply create_request_wf.
  - unfold assign_request. destruct (require_admin _ _); [done |].
    destruct (Requests (db w) !! request_id) as [req|] eqn:Hreq; [|done].
    simpl. by eapply db_wf_update.
  - unfold list_requests. destruct (require_admin _ _); [done |].
    destruct (negb _); [done |]. by destruct (negb _).
  - unfold get_request_details. destruct (require_admin _ _); [done |].
    by destruct (Requests (db w) !! request_id).
  - unfold admin_reply. destruct (get_current_user _ _); [done |].
    destruct (Requests (db w) !! request_id) as [req|] eqn:Hreq; [|done].
    assert (db_wf (set_requests
                     (<[request_id := with_status (Some status_id)
                                        (utcnow_updated clock) p.1 req]>
                        (Requests (db w))) (db w))) as Hwf'
      by by eapply db_wf_update.
    destruct attachment; simpl;
      destruct (outer (Request.UserId req) (Users (db w))) as [owner|]; simpl;
      try destruct (Py.truthy_str (User.Email owner)); exact Hwf'.
Qed.

Lemma run_wf cs w : db_wf (db w) -> db_wf (db (run cs w)).
Proof.
  revert w. induction cs as [|c cs IH]; intros w Hwf; simpl; [done |].
  by apply IH, call_wf.
Qed.

(** Whatever calls are made one after the other on a fresh database, no two
    requests end up with the same number. *)
Lemma run_numbers_unique cs w id1 id2 r1 r2 :
  db_wf (db w) ->
  Requests (db (run cs w)) !! id1 = Some r1 ->
  Requests (db (run cs w)) !! id2 = Some r2 ->
  Request.RequestNumber r1 = Request.RequestNumber r2 -> id1 = id2.
Proof.
  intros Hwf%(run_wf cs)%db_wf_spec. destruct Hwf as (_ & _ & Hnum & _).
  by apply numbered_unique.
Qed.

(** ** Failures *)




(** * Further properties of the workflow *)

(** ** The personal queue *)

Lemma NoDup_rows {A} (m : gmap Z A) : NoDup (rows m).
Proof. unfold rows. rewrite merge_sort_Permutation. apply NoDup_map_to_list. Qed.

Lemma elem_of_queue role d id req :
  (id, req) ∈ queue role d
  <-> Requests d !! id = Some req /\ Request.AssignedRoleId req = role.
Proof. unfold queue. rewrite list_elem_of_filter, elem_of_rows. simpl. tauto. Qed.

(** The queue of a caller is read without changing anything; for a known
    caller it lists, once each, exactly the requests whose assigned role is
    the caller's role (the unassigned ones for a caller without a role). *)
Theorem assigned_requests_queue payload w :
  (assigned_requests payload w).1 = w
  /\ forall user,
       Users (db w) !! payload = Some user ->
       exists listed,
         (assigned_requests payload w).2
         = Returned (success_response "Assigned requests fetched successfully"
                       (Some "تم جلب الطلبات المخصصة بنجاح")
                       (JDict [("requests",
                                JList (map (queue_row (db w)) listed))]))
         /\ NoDup listed
         /\ forall id req,
              (id, req) ∈ listed
              <-> Requests (db w) !! id = Some req
                  /\ Request.AssignedRoleId req = User.RoleID user.
Proof.
  unfold assigned_requests, get_current_user. split.
  - by destruct (Users (db w) !! payload).
  - intros user ->. simpl. exists (queue (User.RoleID user) (db w)).
    split; [done |]. split; [apply NoDup_filter, NoDup_rows |].
    intros id req. apply elem_of_queue.
Qed.

Lemma assigned_requests_queue_witness :
  exists listed,
    (assigned_requests 2 Sample2.w3).2
    = Returned (success_response "Assigned requests fetched successfully"
                  (Some "تم جلب الطلبات المخصصة بنجاح")
                  (JDict [("requests",
                           JList (map (queue_row (db Sample2.w3)) listed))]))
    /\ NoDup listed.
Proof.
  destruct (proj2 (assigned_requests_queue 2 Sample2.w3) Sample.staff
              ltac:(vm_compute; reflexivity))
    as (listed & Hout & Hnodup & _).
  exists listed. split; [exact Hout | exact Hnodup].
Defined.

(** After an admin has assigned a request to a role, the request is in the
    queue of a caller exactly when the caller has that role, and every other
    request is in the queues it was in. *)
Theorem assign_moves_between_queues admin a request_id role_id w req member u :
  Users (db w) !! admin = Some a -> User.RoleID a = Some 1 ->
  Requests (db w) !! request_id = Some req ->
  Users (db w) !! member = Some u ->
  let w' := (assign_request admin request_id role_id w).1 in
  exists listed,
    (assigned_requests member w').2
    = Returned (success_response "Assigned requests fetched successfully"
                  (Some "تم جلب الطلبات المخصصة بنجاح")
                  (JDict [("requests",
                           JList (map (queue_row (db w')) listed))]))
    /\ ((exists req', (request_id, req') ∈ listed)
        <-> User.RoleID u = Some role_id)
    /\ forall id r,
         id <> request_id ->
         ((id, r) ∈ listed <-> (id, r) ∈ queue (User.RoleID u) (db w)).
Proof.
  intros Ha Hrole Hreq Hu w'. subst w'.
  rewrite (assign_request_found _ _ _ _ _ _ (require_admin_inr _ _ _ Ha Hrole) Hreq).
  simpl. unfold assigned_requests, get_current_user. simpl. rewrite Hu. simpl.
  eexists. split; [reflexivity |]. split.
  - split.
    + intros (req' & [Hin Hr]%elem_of_queue). simpl in Hin.
      rewrite lookup_insert_eq in Hin. injection Hin as <-. by rewrite <- Hr.
    + intros Hr. exists (with_AssignedRoleId (Some role_id) req).
      apply elem_of_queue. simpl. by rewrite lookup_insert_eq.
  - intros id r Hne. rewrite !elem_of_queue. simpl.
    by rewrite lookup_insert_ne.
Qed.

Lemma assign_moves_between_queues_witness :
  exists listed req',
    (assigned_requests 2 (assign_request 1 1 2 Sample2.w2).1).2
    = Returned (success_response "Assigned requests fetched successfully"
                  (Some "تم جلب الطلبات المخصصة بنجاح")
                  (JDict [("requests",
                           JList (map (queue_row
                                         (db (assign_request 1 1 2 Sample2.w2).1))
                                      listed))]))
    /\ (1, req') ∈ listed.
Proof.
  destruct (assign_moves_between_queues 1 Sample.admin 1 2 Sample2.w2 _ 2
              Sample.staff ltac:(vm_compute; reflexivity) ltac:(reflexivity)
              ltac:(vm_compute; reflexivity) ltac:(vm_compute; reflexivity))
    as (listed & Hout & Hin & _).
  destruct (proj2 Hin eq_refl) as [req' Hreq'].
  exists listed, req'. split; [exact Hout | exact Hreq'].
Defined.

(** ** Requests that do not exist *)

(** A reply, an assignment or a detail retrieval for an id without a row
    answers REQUEST_NOT_FOUND and leaves the world as it was: no reply row is
    written and an attachment sent along is not stored. *)
Theorem missing_request_not_found payload a request_id w :
  Users (db w) !! payload = Some a ->
  Requests (db w) !! request_id = None ->
  let answer :=
    Returned (error_response "Request not found" (Some "الطلب غير موجود")
                (Some "REQUEST_NOT_FOUND")) in
  (forall cfg clock status_id subject body attachment,
     admin_reply cfg clock payload request_id status_id subject body attachment w
     = (w, answer))
  /\ (User.RoleID a = Some 1 ->
      (forall role_id, assign_request payload request_id role_id w = (w, answer))
      /\ get_request_details payload request_id w = (w, answer)).
Proof.
  intros Hu Hreq answer. split.
  - intros. unfold admin_reply, get_current_user. by rewrite Hu, Hreq.
  - intros Hrole. split.
    + intros role_id. unfold assign_request.
      by rewrite (require_admin_inr _ _ _ Hu Hrole), Hreq.
    + unfold get_request_details.
      by rewrite (require_admin_inr _ _ _ Hu Hrole), Hreq.
Qed.

Lemma missing_request_not_found_witness :
  admin_reply Sample.cfg Sample.reply_clock 2 77 9 None (Some "Done")
    (Some Sample2.upload) Sample.w1
  = (Sample.w1,
     Returned (error_response "Request not found" (Some "الطلب غير موجود")
                 (Some "REQUEST_NOT_FOUND"))).
Proof.
  apply (missing_request_not_found 2 Sample.staff 77 Sample.w1);
    vm_compute; reflexivity.
Defined.

(** ** What a reply writes *)

Lemma admin_reply_state cfg clock payload request_id status_id subject body
    attachment w user req :
  Users (db w) !! payload = Some user ->
  Requests (db w) !! request_id = Some req ->
  let attachment_path :=
    (fun a => "requests/reply/" +:+ reply_file_name clock a) <$> attachment in
  let w' := (admin_reply cfg clock payload request_id status_id subject body
               attachment w).1 in
  db w'
  = set_requests
      (<[request_id := with_status (Some status_id) (utcnow_updated clock)
                         payload req]> (Requests (db w)))
      (add_reply (Reply.mk request_id subject body attachment_path payload
                    (utcnow_reply clock) payload (Some false)) (db w)).2
  /\ files w'
     = files w
       ++ match attachment with
          | Some a => [(Py.path_join (ADMIN_UPLOAD_DIR cfg)
                          (reply_file_name clock a), file a)]
          | None => []
          end.
Proof.
  intros Hu Hreq. unfold admin_reply, get_current_user. rewrite Hu, Hreq.
  destruct attachment as [a|]; simpl;
    destruct (outer (Request.UserId req) (Users (db w))) as [owner|]; simpl;
    try destruct (Py.truthy_str (User.Email owner)); simpl;
    rewrite ?app_nil_r; done.
Qed.

(** A reply by a known caller to an existing request writes the status and
    the two update stamps of that request and one new Reply row under the
    next identity value; every other column of the request, every other
    request and reply, the RequestData and association rows, the users and
    the lookups are as before, and a file is stored only for an attachment. *)
Theorem admin_reply_frame cfg clock payload request_id status_id subject body
    attachment w user req :
  Users (db w) !! payload = Some user ->
  Requests (db w) !! request_id = Some req ->
  let w' := (admin_reply cfg clock payload request_id status_id subject body
               attachment w).1 in
  (exists req',
     Requests (db w') !! request_id = Some req'
     /\ Request.UserId req' = Request.UserId req
     /\ Request.CategoryId req' = Request.CategoryId req
     /\ Request.ComplaintScreenId req' = Request.ComplaintScreenId req
     /\ Request.Subject req' = Request.Subject req
     /\ Request.Body req' = Request.Body req
     /\ Request.AssignedRoleId req' = Request.AssignedRoleId req
     /\ Request.RequestNumber req' = Request.RequestNumber req
     /\ Request.CreatedAt req' = Request.CreatedAt req
     /\ Request.AttachPath req' = Request.AttachPath req
     /\ Request.CreatedByUserID req' = Request.CreatedByUserID req)
  /\ (forall id, id <> request_id ->
        Requests (db w') !! id = Requests (db w) !! id)
  /\ (forall k, k <> Replies_identity (db w) ->
        Replies (db w') !! k = Replies (db w) !! k)
  /\ (exists reply,
        Replies (db w') !! Replies_identity (db w) = Some reply
        /\ Reply.RequestId reply = request_id
        /\ Reply.Subject reply = subject /\ Reply.Body reply = body
        /\ Reply.ResponderUserId reply = payload
        /\ Reply.CreatedByUserID reply = payload
        /\ Reply.CreatedAt reply = utcnow_reply clock)
  /\ Replies_identity (db w') = Replies_identity (db w) + 1
  /\ Requests_identity (db w') = Requests_identity (db w)
  /\ RequestDatas (db w') = RequestDatas (db w)
  /\ RequestDatas_identity (db w') = RequestDatas_identity (db w)
  /\ Request_RequestInformation (db w') = Request_RequestInformation (db w)
  /\ Request_Format (db w') = Request_Format (db w)
  /\ Users (db w') = Users (db w)
  /\ Statuses (db w') = Statuses (db w)
  /\ Categories (db w') = Categories (db w)
  /\ Projections (db w') = Projections (db w)
  /\ ComplaintScreens (db w') = ComplaintScreens (db w)
  /\ RequestInformations (db w') = RequestInformations (db w)
  /\ Formats (db w') = Formats (db w)
  /\ (attachment = None -> files w' = files w).
Proof.
  intros Hu Hreq w'.
  destruct (admin_reply_state cfg clock payload request_id status_id subject
              body attachment w user req Hu Hreq) as [Hdb Hfiles].
  fold w' in Hdb, Hfiles. rewrite Hdb. simpl.
  split; [eexists; split; [apply lookup_insert_eq | done] |].
  split; [intros id Hne; by apply lookup_insert_ne |].
  split; [intros k Hne; by apply lookup_insert_ne |].
  split; [eexists; split; [apply lookup_insert_eq | done] |].
  do 13 (split; [done |]).
  intros ->. rewrite Hfiles. apply app_nil_r.
Qed.

Lemma admin_reply_frame_witness :
  Replies_identity
    (db (admin_reply Sample.cfg Sample.reply_clock 2 1 9 None (Some "Done")
           None Sample2.w2).1) = 2
  /\ Requests (db (admin_reply Sample.cfg Sample.reply_clock 2 1 9 None
                     (Some "Done") None Sample2.w2).1) !! 2
     = Requests (db Sample2.w2) !! 2.
Proof.
  destruct (admin_reply_frame Sample.cfg Sample.reply_clock 2 1 9 None
              (Some "Done") None Sample2.w2 Sample.staff _
              ltac:(vm_compute; reflexivity) ltac:(vm_compute; reflexivity))
    as (_ & Hother & _ & _ & Hid & _).
  split; [exact Hid | apply Hother; discriminate].
Defined.

(** When the owner of the request has an email on file, a reply answers with
    the id of the new reply, the new status and the request id, and schedules
    exactly one mail, to the owner: with the stored file when an attachment
    came along, a plain reply mail otherwise.  Without an owner email no mail
    is scheduled. *)
Theorem admin_reply_notifies cfg clock payload request_id status_id subject body
    attachment w user req :
  Users (db w) !! payload = Some user ->
  Requests (db w) !! request_id = Some req ->
  let result := admin_reply cfg clock payload request_id status_id subject body
                  attachment w in
  (forall owner c rest,
     outer (Request.UserId req) (Users (db w)) = Some owner ->
     User.Email owner = Some (String c rest) ->
     let mail_subject :=
       "NGD - Response to your request " +:+ Request.RequestNumber req in
     let mail_body :=
       ReplyBody (User.FirstName owner) (Request.RequestNumber req)
         (Py.or_else body "No message provided") in
     result.2
     = Returned (success_response "Reply sent successfully"
                   (Some "تم إرسال الرد بنجاح")
                   (JDict [ ("reply_id", JInt (Replies_identity (db w)));
                            ("new_status", JInt status_id);
                            ("request_id", JInt request_id) ]))
     /\ tasks result.1
        = tasks w
          ++ [match attachment with
              | Some a =>
                  send_email_with_attachment mail_subject mail_body
                    (Some (String c rest))
                    ("requests/reply/" +:+ reply_file_name clock a)
              | None =>
                  send_reply_email mail_subject mail_body (Some (String c rest))
              end])
  /\ ((outer (Request.UserId req) (Users (db w)) = None
       \/ exists owner,
            outer (Request.UserId req) (Users (db w)) = Some owner
            /\ (User.Email owner = None \/ User.Email owner = Some "")) ->
      tasks result.1 = tasks w).
Proof.
  intros Hu Hreq result. subst result.
  unfold admin_reply, get_current_user. rewrite Hu, Hreq. split.
  - intros owner c rest Howner Hmail.
    destruct attachment as [a|]; simpl; rewrite Howner, Hmail; done.
  - intros [Hnone|(owner & Hsome & [Hmail|Hmail])];
      destruct attachment as [a|]; simpl;
      rewrite ?Hnone, ?Hsome, ?Hmail; done.
Qed.

Lemma admin_reply_notifies_witness :
  tasks (admin_reply Sample.cfg Sample.reply_clock 1 2 9 None (Some "Done")
           (Some Sample2.upload) Sample2.w2).1
  = tasks Sample2.w2
    ++ [send_email_with_attachment
          ("NGD - Response to your request " +:+ "RQ-20250101-0002")
          (ReplyBody (Some "Sam") "RQ-20250101-0002" "Done")
          (Some "staff@example.org")
          ("requests/reply/"
             +:+ reply_file_name Sample.reply_clock Sample2.upload)].
Proof.
  apply (proj1 (admin_reply_notifies Sample.cfg Sample.reply_clock 1 2 9 None
                  (Some "Done") (Some Sample2.upload) Sample2.w2 Sample.admin
                  (Request.mk (Some 2) (Some 1) None (Some "Broken link") None
                     None "RQ-20250101-0002" (Some 7) Sample.t0 None None None
                     None)
                  ltac:(vm_compute; reflexivity) ltac:(vm_compute; reflexivity))
           Sample.staff "s"%char "taff@example.org");
    vm_compute; reflexivity.
Defined.

(** ** Replies and the views of other requests *)

#[global] Instance key_le_total {A} : Total (@key_le A).
Proof. intros a b. unfold key_le. lia. Qed.

#[global] Instance key_le_trans {A} : Transitive (@key_le A).
Proof. intros a b c. unfold key_le. lia. Qed.

Lemma StronglySorted_filter_keep {A} (R : relation A) (P : A -> Prop)
    `{forall x, Decision (P x)} (l : list A) :
  StronglySorted R l -> StronglySorted R (filter P l).
Proof.
  induction 1 as [|x l Hl IH Hx]; [constructor |].
  rewrite filter_cons. destruct (decide (P x)); [|done].
  constructor; [done |]. apply Forall_forall.
  intros y [_ Hy]%list_elem_of_filter. rewrite Forall_forall in Hx. auto.
Qed.

Lemma rows_sorted {A} (m : gmap Z A) : StronglySorted key_le (rows m).
Proof. apply StronglySorted_merge_sort; apply _. Qed.

(** A row added under a new key does not show in a selection it does not
    satisfy, nor does it move the rows selected. *)
Lemma filter_rows_insert {A} (P : Z * A -> Prop) `{forall e, Decision (P e)}
    (m : gmap Z A) k x :
  m !! k = None -> ~ P (k, x) ->
  filter P (rows (<[k := x]> m)) = filter P (rows m).
Proof.
  intros Hk HP. apply (StronglySorted_unique_strong key_le).
  - intros [k1 x1] [k2 x2] [_ H1%elem_of_rows]%list_elem_of_filter
           [_ H2%elem_of_rows]%list_elem_of_filter Hle1 Hle2.
    unfold key_le in *. simpl in *. assert (k1 = k2) as -> by lia.
    assert (k2 <> k) by (intros ->; congruence).
    rewrite lookup_insert_ne in H1 by done. congruence.
  - apply StronglySorted_filter_keep, rows_sorted.
  - apply StronglySorted_filter_keep, rows_sorted.
  - unfold rows. rewrite !merge_sort_Permutation.
    rewrite (map_to_list_insert m k x Hk). by rewrite filter_cons_False.
Qed.

Lemma replies_identity_free d :
  replies_wfb d = true -> Replies d !! Replies_identity d = None.
Proof.
  unfold replies_wfb. rewrite forallb_forall. intros Hall.
  destruct (Replies d !! Replies_identity d) as [r|] eqn:E; [|done].
  apply elem_of_map_to_list, list_elem_of_In in E.
  specialize (Hall _ E). simpl in Hall. apply Z.ltb_lt in Hall. lia.
Qed.

(** A reply to one request leaves the detail view of every other request
    as it was: the same row, the same replies, the same answer. *)
Theorem reply_leaves_other_views cfg clock payload request_id status_id subject
    body attachment w user req other other_req :
  replies_wfb (db w) = true ->
  Users (db w) !! payload = Some user ->
  Requests (db w) !! request_id = Some req ->
  other <> request_id ->
  Requests (db w) !! other = Some other_req ->
  let w' := (admin_reply cfg clock payload request_id status_id subject body
               attachment w).1 in
  Requests (db w') !! other = Some other_req
  /\ active_replies (db w') other = active_replies (db w) other
  /\ details (db w') other other_req = details (db w) other other_req
  /\ forall admin,
       (get_request_details admin other w').2
       = (get_request_details admin other w).2.
Proof.
  intros Hwf Hu Hreq Hne Hother w'.
  destruct (admin_reply_state cfg clock payload request_id status_id subject
              body attachment w user req Hu Hreq) as [Hdb _].
  fold w' in Hdb.
  assert (Hrow : Requests (db w') !! other = Some other_req).
  { rewrite Hdb. simpl. by rewrite lookup_insert_ne. }
  assert (Hreplies : active_replies (db w') other = active_replies (db w) other).
  { rewrite Hdb. unfold active_replies. simpl.
    apply filter_rows_insert; [by apply replies_identity_free |].
    simpl. intros [? _]. congruence. }
  assert (Hview : details (db w') other other_req = details (db w) other other_req).
  { unfold details. rewrite Hreplies. rewrite Hdb. reflexivity. }
  split; [done |]. split; [done |]. split; [done |].
  intros admin. unfold get_request_details. rewrite Hrow, Hother, Hview.
  rewrite Hdb. unfold require_admin, get_current_user. simpl.
  destruct (Users (db w) !! admin); [|done]. by destruct (negb _).
Qed.

Lemma reply_leaves_other_views_witness :
  (get_request_details 1 2
     (admin_reply Sample.cfg Sample.reply_clock 2 1 9 None (Some "Done") None
        Sample2.w2).1).2
  = (get_request_details 1 2 Sample2.w2).2.
Proof.
  eapply (reply_leaves_other_views Sample.cfg Sample.reply_clock 2 1 9 None
            (Some "Done") None Sample2.w2 Sample.staff _ 2 _);
    try (vm_compute; reflexivity). discriminate.
Defined.

(** Two replies to a request one after the other: the status and the author
    of the update are those of the second, and both replies are among the
    active replies of the request, under consecutive keys. *)
Theorem replies_accumulate cfg clock1 clock2 p1 p2 request_id s1 s2
    subject1 body1 subject2 body2 a1 a2 w u1 u2 req :
  Users (db w) !! p1 = Some u1 -> Users (db w) !! p2 = Some u2 ->
  Requests (db w) !! request_id = Some req ->
  let w1 := (admin_reply cfg clock1 p1 request_id s1 subject1 body1 a1 w).1 in
  let w2 := (admin_reply cfg clock2 p2 request_id s2 subject2 body2 a2 w1).1 in
  (exists req2,
     Requests (db w2) !! request_id = Some req2
     /\ Request.StatusId req2 = Some s2
     /\ Request.UpdatedAt req2 = Some (utcnow_updated clock2)
     /\ Request.UpdatedByUserID req2 = Some p2)
  /\ (Replies_identity (db w),
      Reply.mk request_id subject1 body1
        ((fun a => "requests/reply/" +:+ reply_file_name clock1 a) <$> a1)
        p1 (utcnow_reply clock1) p1 (Some false))
     ∈ active_replies (db w2) request_id
  /\ (Replies_identity (db w) + 1,
      Reply.mk request_id subject2 body2
        ((fun a => "requests/reply/" +:+ reply_file_name clock2 a) <$> a2)
        p2 (utcnow_reply clock2) p2 (Some false))
     ∈ active_replies (db w2) request_id.
Proof.
  intros Hu1 Hu2 Hreq w1 w2.
  destruct (admin_reply_state cfg clock1 p1 request_id s1 subject1 body1 a1 w
              u1 req Hu1 Hreq) as [Hdb1 _].
  fold w1 in Hdb1.
  assert (Hu2' : Users (db w1) !! p2 = Some u2) by (by rewrite Hdb1).
  assert (Hreq1 : Requests (db w1) !! request_id
                  = Some (with_status (Some s1) (utcnow_updated clock1) p1 req))
    by (rewrite Hdb1; apply lookup_insert_eq).
  destruct (admin_reply_state cfg clock2 p2 request_id s2 subject2 body2 a2 w1
              u2 _ Hu2' Hreq1) as [Hdb2 _].
  fold w2 in Hdb2. rewrite Hdb2, Hdb1. simpl.
  split; [eexists; split; [apply lookup_insert_eq | done] |].
  split; apply elem_of_active_replies; simpl; (split; [|done]).
  - rewrite lookup_insert_ne by lia. apply lookup_insert_eq.
  - apply lookup_insert_eq.
Qed.

Lemma replies_accumulate_witness :
  exists req2,
    Requests
      (db (admin_reply Sample.cfg Sample.reply_clock 1 1 7 None (Some "Reopened")
             None
             (admin_reply Sample.cfg Sample.reply_clock 2 1 9 None (Some "Done")
                None Sample2.w2).1).1) !! 1 = Some req2
    /\ Request.StatusId req2 = Some 7.
Proof.
  destruct (replies_accumulate Sample.cfg Sample.reply_clock Sample.reply_clock
              2 1 1 9 7 None (Some "Done") None (Some "Reopened") None None
              Sample2.w2 Sample.staff Sample.admin _
              ltac:(vm_compute; reflexivity) ltac:(vm_compute; reflexivity)
              ltac:(vm_compute; reflexivity))
    as [(req2 & Hreq2 & Hstatus & _) _].
  exists req2. split; [exact Hreq2 | exact Hstatus].
Defined.

(** ** What a creation writes *)

Lemma validate_projection_Some d o p :
  validate_projection d o = Some p -> p = normalised o.
Proof.
  unfold validate_projection, normalised. destruct o as [k|]; [|by intros [= <-]].
  destruct (k =? 0); [by intros [= <-] |].
  destruct (_ && _)%bool; [done | by intros [= <-]].
Qed.

Lemma create_request_state cfg clock form user w :
  succeeded (create_request cfg clock form user w).2 ->
  let id := Requests_identity (db w) in
  let attach_rel :=
    (fun a => "requests/" +:+ request_file_name clock a)
      <$> CreateForm.attach form in
  let number := request_number_of (now_number clock) (next_number (db w)) in
  let row :=
    Request.mk (Some user.1) (Some (CreateForm.CategoryId form))
      (CreateForm.ComplaintScreenId form) (CreateForm.Subject form)
      (CreateForm.Body form) None number (Some 7) (utcnow_created clock)
      attach_rel None None None in
  let data :=
    RequestData.mk id (CreateForm.ProspectiveName form)
      (CreateForm.Coordinate_TopLeft form)
      (CreateForm.Coordinate_BottomRight form)
      (normalised (CreateForm.ProjectionId form))
      (CreateForm.OtherSpecification form) (CreateForm.OtherFormat form)
      (CreateForm.IntendedPurpose form) (CreateForm.RequirementsDetails form)
      (utcnow_data clock) in
  let d1 := (add_request row (db w)).2 in
  let d2 := if CreateForm.CategoryId form =? 8 then add_request_data data d1
            else d1 in
  db (create_request cfg clock form user w).1
  = add_associations
      (map (fun i => (id, i)) (parse_list (CreateForm.RequestInformationIds form)))
      (map (fun i => (id, i)) (parse_list (CreateForm.FormatIds form))) d2
  /\ (create_request cfg clock form user w).2
     = Returned (success_response "Request created successfully"
                   (Some "تم إنشاء الطلب بنجاح")
                   (JDict [ ("request_id", JInt id);
                            ("request_number", JStr number);
                            ("AttachPath", opt_str attach_rel) ])).
Proof.
  intros [p Hp]%succeeded_accepted. simpl.
  rewrite <- (validate_projection_Some _ _ _ Hp).
  unfold create_request. rewrite Hp.
  destruct (CreateForm.attach form) as [a|]; simpl;
    destruct (CreateForm.CategoryId form =? 8); done.
Qed.

(** A successful creation adds one request under a key the table did not
    hold: submitted by the caller, with the fixed initial status 7, assigned
    to no role and never updated; the requests, replies and users that were
    there are untouched. *)
Theorem create_request_row cfg clock form user w :
  db_wf (db w) ->
  succeeded (create_request cfg clock form user w).2 ->
  let id := Requests_identity (db w) in
  let w' := (create_request cfg clock form user w).1 in
  Requests (db w) !! id = None
  /\ (exists row,
        Requests (db w') !! id = Some row
        /\ Request.UserId row = Some user.1
        /\ Request.CategoryId row = Some (CreateForm.CategoryId form)
        /\ Request.ComplaintScreenId row = CreateForm.ComplaintScreenId form
        /\ Request.Subject row = CreateForm.Subject form
        /\ Request.Body row = CreateForm.Body form
        /\ Request.StatusId row = Some 7
        /\ Request.AssignedRoleId row = None
        /\ Request.CreatedAt row = utcnow_created clock
        /\ Request.CreatedByUserID row = None
        /\ Request.UpdatedAt row = None
        /\ Request.UpdatedByUserID row = None)
  /\ (forall id', id' <> id -> Requests (db w') !! id' = Requests (db w) !! id')
  /\ size (Requests (db w')) = S (size (Requests (db w)))
  /\ Requests_identity (db w') = id + 1
  /\ Replies (db w') = Replies (db w)
  /\ Users (db w') = Users (db w).
Proof.
  intros Hwf Hsucc id w'.
  destruct (create_request_state cfg clock form user w Hsucc) as [Hdb _].
  fold w' in Hdb.
  assert (Hfree : Requests (db w) !! id = None).
  { apply db_wf_spec in Hwf as (_ & Hkeys & _).
    destruct (Requests (db w) !! id) as [r|] eqn:E; [|done].
    specialize (Hkeys id r E). subst id. lia. }
  split; [done |]. rewrite Hdb.
  destruct (CreateForm.CategoryId form =? 8); simpl;
    (split; [eexists; split; [apply lookup_insert_eq | done] |]);
    (split; [intros id' Hne; by apply lookup_insert_ne |]);
    (split; [by apply map_size_insert_None | done]).
Qed.

Lemma create_request_row_witness :
  Requests (db Sample.w1) !! 2 = None
  /\ size (Requests (db Sample2.w2)) = 2%nat.
Proof.
  destruct (create_request_row Sample.cfg Sample.clock Sample.plain_form
              (2, Sample.staff) Sample.w1 ltac:(vm_compute; reflexivity)
              ltac:(eexists; split; vm_compute; reflexivity))
    as (Hfree & _ & _ & Hsize & _).
  split; [exact Hfree | exact Hsize].
Defined.

(** A successful data request (category 8) adds one RequestData row under
    the next identity value, linked to the new request, with the fields of
    the form and the projection id of the form, the blank value 0 stored as
    no projection. *)
Theorem create_request_data_row cfg clock form user w :
  succeeded (create_request cfg clock form user w).2 ->
  CreateForm.CategoryId form = 8 ->
  let w' := (create_request cfg clock form user w).1 in
  RequestDatas (db w')
  = <[RequestDatas_identity (db w) :=
        RequestData.mk (Requests_identity (db w))
          (CreateForm.ProspectiveName form)
          (CreateForm.Coordinate_TopLeft form)
          (CreateForm.Coordinate_BottomRight form)
          (match CreateForm.ProjectionId form with
           | Some p => if p =? 0 then None else Some p
           | None => None
           end)
          (CreateForm.OtherSpecification form) (CreateForm.OtherFormat form)
          (CreateForm.IntendedPurpose form) (CreateForm.RequirementsDetails form)
          (utcnow_data clock)]> (RequestDatas (db w))
  /\ RequestDatas_identity (db w') = RequestDatas_identity (db w) + 1
  /\ (forall p, CreateForm.ProjectionId form = Some p -> p <> 0 ->
        is_Some (Projections (db w) !! p)).
Proof.
  intros Hsucc Hcat w'.
  destruct (create_request_state cfg clock form user w Hsucc) as [Hdb _].
  fold w' in Hdb. rewrite Hdb, Hcat. simpl. split; [done |]. split; [done |].
  intros p Hp Hne. apply succeeded_accepted in Hsucc as [q Hq].
  destruct (Projections (db w) !! p) eqn:E; [by eexists |].
  assert (validate_projection (db w) (CreateForm.ProjectionId form) = None)
    as Hnone by (apply validate_projection_None; by exists p).
  congruence.
Qed.

Lemma create_request_data_row_witness :
  exists data,
    RequestDatas
      (db (create_request Sample.cfg Sample.clock Sample2.blank_projection_form
             (2, Sample.staff) Sample.w1).1) !! 2 = Some data
    /\ RequestData.RequestId data = 2
    /\ RequestData.ProjectionId data = None.
Proof.
  destruct (create_request_data_row Sample.cfg Sample.clock
              Sample2.blank_projection_form (2, Sample.staff) Sample.w1
              ltac:(eexists; split; vm_compute; reflexivity) ltac:(reflexivity))
    as (Hdata & _).
  eexists. split; [rewrite Hdata; apply lookup_insert_eq | split; reflexivity].
Defined.




(** A successful creation schedules exactly two mails, in this order: one
    to the internal mailbox, carrying the stored file when there is one, and
    one to the submitter's address acknowledging the request number. *)
Theorem create_request_notifies cfg clock form user w :
  succeeded (create_request cfg clock form user w).2 ->
  let w' := (create_request cfg clock form user w).1 in
  let number := request_number_of (now_number clock) (next_number (db w)) in
  exists internal acknowledgement,
    tasks w' = tasks w ++ [internal; acknowledgement]
    /\ recipient internal = Some (SYSTEM_EMAIL cfg)
    /\ attached internal
       = (fun a => "requests/"
                     +:+ (strftime_YmdHMS (utcnow_attach clock) +:+ "_"
                            +:+ Py.replace " " "_" (filename a)))
           <$> CreateForm.attach form
    /\ recipient acknowledgement = User.Email user.2
    /\ attached acknowledgement = None
    /\ mail_subject acknowledgement = "NGD - Request " +:+ number +:+ " received"
    /\ (Categories (db w) !! CreateForm.CategoryId form = None ->
        mail_subject internal
        = "New Request " +:+ number +:+ " - " +:+ "Unknown Category").
Proof.
  intros [p Hp]%succeeded_accepted w' number. subst w'.
  unfold create_request. rewrite Hp.
  destruct (CreateForm.attach form) as [a|]; simpl;
    destruct (CreateForm.CategoryId form =? 8); simpl;
    (eexists _, _; split; [reflexivity |]); simpl;
    repeat (split; [done |]); by intros ->.
Qed.

Lemma create_request_notifies_witness :
  exists internal acknowledgement,
    tasks Sample2.w2 = tasks Sample.w1 ++ [internal; acknowledgement]
    /\ recipient internal = Some "portal@example.org"
    /\ recipient acknowledgement = Some "staff@example.org".
Proof.
  destruct (create_request_notifies Sample.cfg Sample.clock Sample.plain_form
              (2, Sample.staff) Sample.w1
              ltac:(eexists; split; vm_compute; reflexivity))
    as (internal & acknowledgement & Htasks & Hto & _ & Hto' & _).
  exists internal, acknowledgement.
  split; [exact Htasks |]. split; [exact Hto | exact Hto'].
Defined.

(** ** Reading a new request back *)

(** Entries of the detail view that the RequestData part never replaces. *)
Lemma details_request_entries d request_id req :
  dict_get "id" (details d request_id req) = Some (JInt request_id)
  /\ dict_get "number" (details d request_id req)
     = Some (JStr (Request.RequestNumber req))
  /\ dict_get "type" (details d request_id req)
     = Some (names (resolve (Request.CategoryId req) (Categories d)))
  /\ dict_get "user_email" (details d request_id req)
     = Some (opt_str (resolve (Request.UserId req) (Users d) ≫= User.Email))
  /\ dict_get "subject" (details d request_id req)
     = Some (opt_str (Request.Subject req))
  /\ dict_get "body" (details d request_id req)
     = Some (opt_str (Request.Body req))
  /\ dict_get "assigned_role_id" (details d request_id req)
     = Some (opt_int (Request.AssignedRoleId req))
  /\ dict_get "attach_path" (details d request_id req)
     = Some (opt_str (Request.AttachPath req)).
Proof.
  unfold details, request_data_details.
  destruct (resolve (Request.CategoryId req) (Categories d)); [|done].
  case_bool_decide; [|done].
  destruct (filter _ (rows (RequestDatas d))) as [|[k rd] rest]; done.
Qed.

(** The detail view of a request that was just created shows what was
    submitted: its id and number, subject and body, the names of status 7,
    the submitter's email, the stored path of the upload, no assigned role
    and no update yet. *)
Theorem create_then_details cfg clock form user w admin a :
  succeeded (create_request cfg clock form user w).2 ->
  Users (db w) !! admin = Some a -> User.RoleID a = Some 1 ->
  Users (db w) !! user.1 = Some user.2 -> user.1 <> 0 ->
  let id := Requests_identity (db w) in
  let w' := (create_request cfg clock form user w).1 in
  exists view number attach_rel,
    (create_request cfg clock form user w).2
    = Returned (success_response "Request created successfully"
                  (Some "تم إنشاء الطلب بنجاح")
                  (JDict [ ("request_id", JInt id);
                           ("request_number", JStr number);
                           ("AttachPath", opt_str attach_rel) ]))
    /\ get_request_details admin id w'
       = (w', Returned (success_response "Request details fetched successfully"
                          (Some "تم جلب تفاصيل الطلب بنجاح")
                          (JDict [("request", JDict view)])))
    /\ dict_get "id" view = Some (JInt id)
    /\ dict_get "number" view = Some (JStr number)
    /\ dict_get "subject" view = Some (opt_str (CreateForm.Subject form))
    /\ dict_get "body" view = Some (opt_str (CreateForm.Body form))
    /\ dict_get "status" view = Some (names (Statuses (db w) !! 7))
    /\ dict_get "user_email" view = Some (opt_str (User.Email user.2))
    /\ dict_get "attach_path" view = Some (opt_str attach_rel)
    /\ dict_get "assigned_role_id" view = Some JNone
    /\ dict_get "updated_at" view = Some JNone
    /\ dict_get "updated_by" view = Some JNone.
Proof.
  intros Hsucc Ha Hrole Huser Hnz id w'.
  destruct (create_request_state cfg clock form user w Hsucc) as [Hdb Hout].
  fold w' id in Hdb, Hout.
  set (row := Request.mk (Some user.1) (Some (CreateForm.CategoryId form))
                (CreateForm.ComplaintScreenId form) (CreateForm.Subject form)
                (CreateForm.Body form) None
                (request_number_of (now_number clock) (next_number (db w)))
                (Some 7) (utcnow_created clock)
                ((fun a => "requests/" +:+ request_file_name clock a)
                   <$> CreateForm.attach form) None None None) in *.
  assert (Husers : Users (db w') = Users (db w))
    by (rewrite Hdb; by destruct (CreateForm.CategoryId form =? 8)).
  assert (Hstatuses : Statuses (db w') = Statuses (db w))
    by (rewrite Hdb; by destruct (CreateForm.CategoryId form =? 8)).
  assert (Hrow : Requests (db w') !! id = Some row).
  { rewrite Hdb. destruct (CreateForm.CategoryId form =? 8); apply lookup_insert_eq. }
  exists (details (db w') id row). eexists _, _.
  split; [exact Hout |].
  split; [apply (get_request_details_found admin id w' a row);
            [by rewrite Husers | done | done] |].
  destruct (details_request_entries (db w') id row)
    as (Hid & Hnum & _ & Hmail & Hsub & Hbody & Hassigned & Hpath).
  destruct (details_entries (db w') id row) as (Hstatus & Hat & Hby & _).
  rewrite Hid, Hnum, Hmail, Hsub, Hbody, Hassigned, Hpath, Hstatus, Hat, Hby.
  rewrite Husers, Hstatuses. simpl.
  rewrite !resolve_Some. apply Z.eqb_neq in Hnz. rewrite Hnz, Huser. done.
Qed.

Lemma create_then_details_witness :
  exists view,
    get_request_details 1 2 Sample2.w2
    = (Sample2.w2,
       Returned (success_response "Request details fetched successfully"
                   (Some "تم جلب تفاصيل الطلب بنجاح")
                   (JDict [("request", JDict view)])))
    /\ dict_get "user_email" view = Some (JStr "staff@example.org").
Proof.
  destruct (create_then_details Sample.cfg Sample.clock Sample.plain_form
              (2, Sample.staff) Sample.w1 1 Sample.admin
              ltac:(eexists; split; vm_compute; reflexivity)
              ltac:(vm_compute; reflexivity) ltac:(reflexivity)
              ltac:(vm_compute; reflexivity) ltac:(discriminate))
    as (view & number & attach_rel & _ & Hview & _ & _ & _ & _ & _ & Hmail & _).
  exists view. split; [exact Hview | exact Hmail].
Defined.

Lemma data_wfb_spec d :
  data_wfb d = true
  <-> forall k rd, RequestDatas d !! k = Some rd ->
        RequestData.RequestId rd < Requests_identity d.
Proof.
  unfold data_wfb. rewrite forallb_forall. split.
  - intros Hall k rd Hrd. apply elem_of_map_to_list, list_elem_of_In in Hrd.
    specialize (Hall _ Hrd). simpl in Hall. by apply Z.ltb_lt.
  - intros Hall [k rd] Hin%list_elem_of_In%elem_of_map_to_list. simpl.
    apply Z.ltb_lt. eauto.
Qed.

(** The RequestData row of a new data request is the first one that the
    detail view finds for it. *)
Lemma first_data_row d (id : Z) k (rd : RequestData.t) :
  (forall k' rd', RequestDatas d !! k' = Some rd' -> RequestData.RequestId rd' < id) ->
  RequestData.RequestId rd = id ->
  exists rest,
    filter (fun e : Z * RequestData.t => RequestData.RequestId e.2 = id)
           (rows (<[k := rd]> (RequestDatas d)))
    = (k, rd) :: rest.
Proof.
  intros Hold Hid.
  set (l := filter _ _).
  assert (Hin : (k, rd) ∈ l).
  { apply list_elem_of_filter. split; [done |]. apply elem_of_rows, lookup_insert_eq. }
  assert (Hall : forall e, e ∈ l -> e = (k, rd)).
  { intros [k' rd'] [Hp Hrow%elem_of_rows]%list_elem_of_filter. simpl in Hp.
    apply lookup_insert_Some in Hrow as [[<- <-]|[_ Hrow]]; [done |].
    specialize (Hold _ _ Hrow). lia. }
  destruct l as [|e rest]; [by apply elem_of_nil in Hin |].
  exists rest. f_equal. apply Hall. by left.
Qed.

(** The detail view of a new data request (category 8 with its Category
    row) also shows the RequestData fields, the name of the projection, and
    under "created_at" the time the RequestData row was written, which
    replaces the creation time of the request. *)
Theorem data_request_details cfg clock form user w admin a category :
  data_wfb (db w) = true ->
  succeeded (create_request cfg clock form user w).2 ->
  CreateForm.CategoryId form = 8 ->
  Categories (db w) !! 8 = Some category ->
  Users (db w) !! admin = Some a -> User.RoleID a = Some 1 ->
  let id := Requests_identity (db w) in
  let w' := (create_request cfg clock form user w).1 in
  exists view,
    get_request_details admin id w'
    = (w', Returned (success_response "Request details fetched successfully"
                       (Some "تم جلب تفاصيل الطلب بنجاح")
                       (JDict [("request", JDict view)])))
    /\ dict_get "created_at" view = Some (JTime (utcnow_data clock))
    /\ dict_get "prospective_name" view
       = Some (opt_str (CreateForm.ProspectiveName form))
    /\ dict_get "projection" view
       = Some (opt_str
           (match CreateForm.ProjectionId form with
            | Some p => if p =? 0 then None else Projections (db w) !! p
            | None => None
            end ≫= Lookup.Name))
    /\ dict_get "intended_purpose" view
       = Some (opt_str (CreateForm.IntendedPurpose form))
    /\ dict_get "requirements_details" view
       = Some (opt_str (CreateForm.RequirementsDetails form))
    /\ dict_get "other_specification" view
       = Some (opt_str (CreateForm.OtherSpecification form))
    /\ dict_get "other_format" view
       = Some (opt_str (CreateForm.OtherFormat form)).
Proof.
  intros Hwf Hsucc Hcat Hcategory Ha Hrole id w'.
  destruct (create_request_state cfg clock form user w Hsucc) as [Hdb _].
  fold w' id in Hdb. rewrite Hcat in Hdb. simpl in Hdb.
  set (row := Request.mk (Some user.1) (Some 8)
                (CreateForm.ComplaintScreenId form) (CreateForm.Subject form)
                (CreateForm.Body form) None
                (request_number_of (now_number clock) (next_number (db w)))
                (Some 7) (utcnow_created clock)
                ((fun a => "requests/" +:+ request_file_name clock a)
                   <$> CreateForm.attach form) None None None) in *.
  assert (Hrow : Requests (db w') !! id = Some row)
    by (rewrite Hdb; apply lookup_insert_eq).
  exists (details (db w') id row).
  split; [apply (get_request_details_found admin id w' a row);
            [by rewrite Hdb | done | done] |].
  set (rd := RequestData.mk id (CreateForm.ProspectiveName form)
               (CreateForm.Coordinate_TopLeft form)
               (CreateForm.Coordinate_BottomRight form)
               (normalised (CreateForm.ProjectionId form))
               (CreateForm.OtherSpecification form) (CreateForm.OtherFormat form)
               (CreateForm.IntendedPurpose form)
               (CreateForm.RequirementsDetails form) (utcnow_data clock)) in *.
  destruct (first_data_row (db w) id (RequestDatas_identity (db w)) rd
              (proj1 (data_wfb_spec _) Hwf) eq_refl) as [rest Hfirst].
  unfold details, request_data_details. rewrite Hdb. simpl.
  rewrite (resolve_Some 8). simpl. rewrite Hcategory.
  rewrite bool_decide_true by done. rewrite Hfirst. simpl.
  repeat split.
  unfold normalised, resolve, Py.truthy, outer.
  destruct (CreateForm.ProjectionId form) as [p|]; [|done].
  destruct (Z.eqb_spec p 0); [done |]. simpl.
  by destruct (Z.eqb_spec p 0).
Qed.

Lemma data_request_details_witness :
  exists view,
    get_request_details 1 1 Sample.w1
    = (Sample.w1,
       Returned (success_response "Request details fetched successfully"
                   (Some "تم جلب تفاصيل الطلب بنجاح")
                   (JDict [("request", JDict view)])))
    /\ dict_get "prospective_name" view = Some (JStr "Riyadh Block A")
    /\ dict_get "projection" view = Some (JStr "UTM 38N").
Proof.
  destruct (data_request_details Sample.cfg Sample.clock Sample.data_form
              (3, Sample.silent) Sample.w0 1 Sample.admin
              (Lookup.mk (Some "Data request") None)
              ltac:(vm_compute; reflexivity)
              ltac:(eexists; split; vm_compute; reflexivity)
              ltac:(reflexivity) ltac:(vm_compute; reflexivity)
              ltac:(vm_compute; reflexivity) ltac:(reflexivity))
    as (view & Hview & _ & Hname & Hproj & _).
  exists view. split; [exact Hview |]. split; [exact Hname | exact Hproj].
Defined.

(** ** Pages of the listing *)

Lemma length_base_query d : length (base_query d) = size (Requests d).
Proof.
  unfold base_query. rewrite merge_sort_Permutation. apply length_map_to_list.
Qed.




(** For an admin caller and parameters in range the listing answers with
    the total number of requests and with as many rows as the page can
    hold: [limit] of them, or what is left after the rows skipped. *)
Theorem list_requests_count payload page limit w a :
  Users (db w) !! payload = Some a -> User.RoleID a = Some 1 ->
  1 <= page -> 1 <= limit <= 200 ->
  let total := Z.of_nat (size (Requests (db w))) in
  exists results,
    (list_requests payload page limit w).2
    = Returned
        (success_response "Requests fetched successfully"
           (Some "تم جلب الطلبات بنجاح")
           (JDict [ ("page", JInt page);
                    ("limit", JInt limit);
                    ("count", JInt (Z.min limit (Z.max 0 (total - (page - 1) * limit))));
                    ("total", JInt total);
                    ("requests", JList results) ]))
    /\ Z.of_nat (length results)
       = Z.min limit (Z.max 0 (total - (page - 1) * limit)).
Proof.
  intros Hu Hrole Hpage [Hlo Hhi] total.
  assert (Hlen : Z.of_nat (length (map (list_row (db w))
                                       (paged_requests page limit (db w))))
                 = Z.min limit (Z.max 0 (total - (page - 1) * limit))).
  { rewrite length_map. unfold paged_requests.
    rewrite length_take, length_drop, length_base_query. subst total.
    assert (0 <= (page - 1) * limit) by nia. lia. }
  exists (map (list_row (db w)) (paged_requests page limit (db w))).
  split; [|done]. rewrite <- Hlen.
  unfold list_requests. rewrite (require_admin_inr _ _ _ Hu Hrole).
  apply Z.leb_le in Hpage, Hlo, Hhi. by rewrite Hpage, Hlo, Hhi.
Qed.

Lemma list_requests_count_witness :
  exists results,
    (list_requests 1 2 1 Sample2.w2).2
    = Returned
        (success_response "Requests fetched successfully"
           (Some "تم جلب الطلبات بنجاح")
           (JDict [ ("page", JInt 2); ("limit", JInt 1); ("count", JInt 1);
                    ("total", JInt 2); ("requests", JList results) ])).
Proof.
  destruct (list_requests_count 1 2 1 Sample2.w2 Sample.admin
              ltac:(vm_compute; reflexivity) ltac:(reflexivity)
              ltac:(lia) ltac:(lia))
    as (results & Hout & _).
  exists results. exact Hout.
Defined.

(** ** Lists of ids *)

Lemma digit_bounds c :
  Py.is_digit c = true -> (48 <= nat_of_ascii c <= 57)%nat.
Proof.
  unfold Py.is_digit. intros [H1 H2]%andb_true_iff.
  apply Nat.leb_le in H1, H2. lia.
Qed.

Lemma digit_not_space c : Py.is_digit c = true -> Py.is_space c = false.
Proof.
  intros H%digit_bounds. unfold Py.is_space.
  destruct (Nat.leb_spec 9 (nat_of_ascii c)), (Nat.leb_spec (nat_of_ascii c) 13),
    (Nat.leb_spec 28 (nat_of_ascii c)), (Nat.leb_spec (nat_of_ascii c) 32);
    simpl; try done; lia.
Qed.

Lemma rstrip_digits s : Py.all_chars Py.is_digit s = true -> Py.rstrip s = s.
Proof.
  induction s as [|c r IH]; simpl; [done |].
  intros [Hc Hr]%andb_true_iff. rewrite (IH Hr), (digit_not_space _ Hc).
  by destruct r.
Qed.

Lemma strip_digits s : Py.all_chars Py.is_digit s = true -> Py.strip s = s.
Proof.
  intros Hs. unfold Py.strip.
  replace (Py.lstrip s) with s; [by apply rstrip_digits |].
  destruct s as [|c r]; [done |]. simpl in *.
  apply andb_true_iff in Hs as [Hc _]. by rewrite (digit_not_space _ Hc).
Qed.

Lemma isdigit_all_chars s :
  Py.isdigit s = true <-> s <> "" /\ Py.all_chars Py.is_digit s = true.
Proof. destruct s; simpl; naive_solver. Qed.

Lemma int_acc_nonneg s acc :
  Py.all_chars Py.is_digit s = true -> 0 <= acc -> 0 <= Py.int_acc s acc.
Proof.
  revert acc. induction s as [|c r IH]; intros acc; simpl; [done |].
  intros [Hc Hr]%andb_true_iff Hacc. apply IH; [done |].
  apply digit_bounds in Hc. unfold Py.digit_value. lia.
Qed.

(** Ids written in decimal and joined with commas are read back as they
    were, in order and with their repetitions. *)
Theorem parse_list_ids (ids : list Z) :
  Forall (fun i => 0 <= i) ids ->
  parse_list (Some (Py.join "," (map Py.str ids))) = ids.
Proof.
  intros Hids.
  rewrite (parse_list_join _ (map Py.str ids)); [| |done].
  - induction Hids as [|i ids Hi _ IH]; [done |]. simpl.
    assert (Hd := str_digits i Hi). assert (Hne := str_not_empty i Hi).
    rewrite filter_cons_True.
    + simpl. rewrite (strip_digits _ Hd), (int_str i Hi). by rewrite IH.
    + unfold numeric. rewrite (strip_digits _ Hd). by apply isdigit_all_chars.
  - apply Forall_fmap. eapply Forall_impl; [exact Hids |].
    intros i Hi. simpl. unfold comma_free.
    eapply all_chars_impl; [|by apply str_digits].
    intros c Hc. by rewrite (digit_not_sign c ",").
Qed.

Lemma parse_list_ids_witness :
  parse_list (Some (Py.join "," (map Py.str [12; 0; 12; 4051]))) = [12; 0; 12; 4051].
Proof. apply parse_list_ids. repeat constructor; lia. Defined.

(** Whatever text is submitted, the ids that reach the association tables
    are never negative: a signed token is not numeric. *)
Theorem parse_list_nonneg (v : option string) :
  Forall (fun i => 0 <= i) (parse_list v).
Proof.
  unfold parse_list. destruct v as [[|c r]|]; try by constructor.
  apply Forall_fmap, Forall_forall.
  intros x [[_ Hx]%isdigit_all_chars _]%list_elem_of_filter. simpl.
  by apply int_acc_nonneg.
Qed.

(** ** Request numbers *)

Lemma length_zeros k : String.length (Py.zeros k) = k.
Proof. induction k; simpl; auto. Qed.

Lemma length_append (a b : string) :
  String.length (a +:+ b) = (String.length a + String.length b)%nat.
Proof.
  induction a as [|c a IH]; [done |]. rewrite append_cons. simpl. by rewrite IH.
Qed.

(** The sequence part of a request number has at least four characters, all
    of them digits, and determines the sequence: two numbers formatted from
    different sequences differ, whatever their dates. *)
Theorem request_number_sequence today1 today2 n m :
  0 <= n -> 0 <= m ->
  Py.all_chars Py.is_digit (Py.zfill 4 (Py.str n)) = true
  /\ (4 <= String.length (Py.zfill 4 (Py.str n)))%nat
  /\ ("RQ-" +:+ strftime_Ymd today1 +:+ "-" +:+ Py.zfill 4 (Py.str n)
      = "RQ-" +:+ strftime_Ymd today2 +:+ "-" +:+ Py.zfill 4 (Py.str m) ->
      n = m).
Proof.
  intros Hn Hm. split; [by apply zfill_str_digits |]. split.
  - rewrite zfill_digits by by apply str_digits.
    rewrite length_append, length_zeros. lia.
  - intros Heq.
    pose proof (number_seq_request_number today1 n Hn) as H1.
    pose proof (number_seq_request_number today2 m Hm) as H2.
    unfold request_number_of in H1, H2. rewrite Heq in H1. congruence.
Qed.

Lemma request_number_sequence_witness :
  (4 <= String.length (Py.zfill 4 (Py.str 12345)))%nat.
Proof.
  apply (request_number_sequence Sample.t0 Sample.t1 12345 7); lia.
Defined.

Lemma run_numbers_unique_witness :
  exists r1 r3,
    Requests (db (run [AssignRequest 1 1 2;
                       CreateRequest Sample.cfg Sample.clock Sample.data_form
                         (2, Sample.staff)] Sample2.w2)) !! 1 = Some r1
    /\ Requests (db (run [AssignRequest 1 1 2;
                          CreateRequest Sample.cfg Sample.clock Sample.data_form
                            (2, Sample.staff)] Sample2.w2)) !! 3 = Some r3
    /\ Request.RequestNumber r1 <> Request.RequestNumber r3.
Proof.
  eexists _, _. split; [vm_compute; reflexivity |].
  split; [vm_compute; reflexivity |]. intros Heq.
  pose proof (run_numbers_unique
                [AssignRequest 1 1 2;
                 CreateRequest Sample.cfg Sample.clock Sample.data_form
                   (2, Sample.staff)] Sample2.w2 1 3 _ _
                ltac:(vm_compute; reflexivity) ltac:(vm_compute; reflexivity)
                ltac:(vm_compute; reflexivity) Heq) as H.
  discriminate H.
Defined.

Lemma call_identity_mono c w :
  Requests_identity (db w) <= Requests_identity (db (call c w).1).
Proof.
  destruct c; simpl.
  - destruct (validate_projection (db w) (CreateForm.ProjectionId form))
      as [p|] eqn:Hp.
    + destruct (create_request_accepted cfg clock form user w p Hp)
        as (? & ? & _ & _ & -> & _). lia.
    + destruct (create_request_refused cfg clock form user w Hp) as (-> & _). lia.
  - unfold assign_request. destruct (require_admin _ _); [done |].
    by destruct (Requests (db w) !! request_id).
  - unfold list_requests. destruct (require_admin _ _); [done |].
    destruct (negb _); [done |]. by destruct (negb _).
  - unfold get_request_details. destruct (require_admin _ _); [done |].
    by destruct (Requests (db w) !! request_id).
  - unfold admin_reply. destruct (get_current_user _ _); [done |].
    destruct (Requests (db w) !! request_id) as [req|]; [|done].
    destruct attachment; simpl;
      destruct (outer (Request.UserId req) (Users (db w))) as [owner|]; simpl;
      try destruct (Py.truthy_str (User.Email owner)); done.
Qed.

Lemma run_identity_mono cs w :
  Requests_identity (db w) <= Requests_identity (db (run cs w)).
Proof.
  revert w. induction cs as [|c cs IH]; intros w; simpl; [done |].
  etrans; [apply call_identity_mono | apply IH].
Qed.

(** Of two successful creations, with any calls in between, the later one
    answers with the greater request id. *)
Theorem request_ids_increase cfg1 clock1 form1 user1 cfg2 clock2 form2 user2 cs w :
  succeeded (create_request cfg1 clock1 form1 user1 w).2 ->
  let w1 := (create_request cfg1 clock1 form1 user1 w).1 in
  let w2 := run cs w1 in
  succeeded (create_request cfg2 clock2 form2 user2 w2).2 ->
  exists id1 id2 number1 number2 path1 path2,
    (create_request cfg1 clock1 form1 user1 w).2
    = Returned (success_response "Request created successfully"
                  (Some "تم إنشاء الطلب بنجاح")
                  (JDict [ ("request_id", JInt id1);
                           ("request_number", JStr number1);
                           ("AttachPath", path1) ]))
    /\ (create_request cfg2 clock2 form2 user2 w2).2
       = Returned (success_response "Request created successfully"
                     (Some "تم إنشاء الطلب بنجاح")
                     (JDict [ ("request_id", JInt id2);
                              ("request_number", JStr number2);
                              ("AttachPath", path2) ]))
    /\ id1 < id2.
Proof.
  intros Hs1 w1 w2 Hs2.
  destruct (create_request_state cfg1 clock1 form1 user1 w Hs1) as [_ Hout1].
  destruct (create_request_state cfg2 clock2 form2 user2 w2 Hs2) as [_ Hout2].
  eexists _, _, _, _, _, _. split; [exact Hout1 |]. split; [exact Hout2 |].
  pose proof (run_identity_mono cs w1) as Hmono. fold w2 in Hmono.
  apply succeeded_accepted in Hs1 as [p Hp].
  destruct (create_request_accepted cfg1 clock1 form1 user1 w p Hp)
    as (? & ? & _ & _ & Hid & _).
  fold w1 in Hid. lia.
Qed.

Lemma request_ids_increase_witness :
  exists id1 id2 number1 number2 path1 path2,
    (create_request Sample.cfg Sample.clock Sample.data_form (3, Sample.silent)
       Sample.w0).2
    = Returned (success_response "Request created successfully"
                  (Some "تم إنشاء الطلب بنجاح")
                  (JDict [ ("request_id", JInt id1);
                           ("request_number", JStr number1);
                           ("AttachPath", path1) ]))
    /\ (create_request Sample.cfg Sample.clock Sample.plain_form
          (2, Sample.staff)
          (run [AssignRequest 1 1 2]
             (create_request Sample.cfg Sample.clock Sample.data_form
                (3, Sample.silent) Sample.w0).1)).2
       = Returned (success_response "Request created successfully"
                     (Some "تم إنشاء الطلب بنجاح")
                     (JDict [ ("request_id", JInt id2);
                              ("request_number", JStr number2);
                              ("AttachPath", path2) ]))
    /\ id1 < id2.
Proof.
  apply (request_ids_increase Sample.cfg Sample.clock Sample.data_form
           (3, Sample.silent) Sample.cfg Sample.clock Sample.plain_form
           (2, Sample.staff) [AssignRequest 1 1 2] Sample.w0);
    eexists; split; vm_compute; reflexivity.
Defined.

(** ** Names of the stored files *)

Lemma Forall_last {A} (P : A -> Prop) (l : list A) d :
  Forall P l -> P d -> P (List.last l d).
Proof.
  induction 1 as [|x l Hx Hl IH]; [done |]. intros Hd.
  destruct l; [done |]. by apply IH.
Qed.

Lemma basename_slash_free s : slash_free (Py.basename s) = true.
Proof.
  unfold Py.basename, slash_free.
  apply (Forall_last (fun t => Py.all_chars _ t = true)); [apply split_free | done].
Qed.

Lemma replace_keeps p old new s :
  p new = true -> Py.all_chars p s = true ->
  Py.all_chars p (Py.replace old new s) = true.
Proof.
  intros Hnew. induction s as [|c r IH]; simpl; [done |].
  intros [Hc Hr]%andb_true_iff. rewrite (IH Hr).
  by destruct (Ascii.eqb c old); rewrite ?Hnew, ?Hc.
Qed.

Lemma replace_removes old new s :
  Ascii.eqb new old = false ->
  Py.all_chars (fun c => negb (Ascii.eqb c old)) (Py.replace old new s) = true.
Proof.
  intros Hne. induction s as [|c r IH]; simpl; [done |]. rewrite IH.
  destruct (Ascii.eqb c old) eqn:E; by rewrite ?Hne, ?E.
Qed.

Lemma digits_free sep s :
  Py.is_digit sep = false -> Py.all_chars Py.is_digit s = true ->
  Py.all_chars (fun c => negb (Ascii.eqb c sep)) s = true.
Proof.
  intros Hsep. apply all_chars_impl. intros c Hc.
  by rewrite (digit_not_sign c sep).
Qed.

Lemma strftime_digits t :
  datetime_ok t -> Py.all_chars Py.is_digit (strftime_YmdHMS t) = true.
Proof.
  intros (Hy & Hm & Hd & Hh & Hmi & Hs).
  unfold strftime_YmdHMS, strftime_Ymd.
  rewrite !all_chars_app, !zfill_str_digits; done.
Qed.

(** The file sent with a reply is stored under the time stamp and the base
    name of the uploaded file name: whatever directories that name carries,
    the stored name holds neither a slash nor a blank, and the Reply row
    keeps its path under [requests/reply/]. *)
Theorem reply_file_stored cfg clock payload request_id status_id subject body
    a w user req :
  Users (db w) !! payload = Some user ->
  Requests (db w) !! request_id = Some req ->
  datetime_ok (utcnow_file clock) ->
  let w' := (admin_reply cfg clock payload request_id status_id subject body
               (Some a) w).1 in
  let name :=
    strftime_YmdHMS (utcnow_file clock) +:+ "_"
      +:+ Py.replace " " "_" (Py.basename (filename a)) in
  slash_free name = true
  /\ space_free name = true
  /\ files w' = files w ++ [(Py.path_join (ADMIN_UPLOAD_DIR cfg) name, file a)]
  /\ exists reply,
       Replies (db w') !! Replies_identity (db w) = Some reply
       /\ Reply.AttachmentPath reply = Some ("requests/reply/" +:+ name).
Proof.
  intros Hu Hreq Hok w' name.
  destruct (admin_reply_state cfg clock payload request_id status_id subject
              body (Some a) w user req Hu Hreq) as [Hdb Hfiles].
  fold w' in Hdb, Hfiles.
  pose proof (strftime_digits _ Hok) as Hdigits.
  split; [|split; [|split; [done |]]].
  - unfold slash_free, name. rewrite !all_chars_app. simpl.
    rewrite (digits_free "/" _ eq_refl Hdigits).
    simpl. apply replace_keeps; [done | apply basename_slash_free].
  - unfold space_free, name. rewrite !all_chars_app. simpl.
    rewrite (digits_free " " _ eq_refl Hdigits).
    simpl. by apply replace_removes.
  - rewrite Hdb. simpl. eexists. split; [apply lookup_insert_eq | done].
Qed.

Lemma reply_file_stored_witness :
  files (admin_reply Sample.cfg Sample.reply_clock 1 2 9 None (Some "Done")
           (Some Sample2.nested_upload) Sample2.w2).1
  = files Sample2.w2
    ++ [("uploads/reply/20250101100000_final_answer.pdf", "%PDF-1.4")].
Proof.
  destruct (reply_file_stored Sample.cfg Sample.reply_clock 1 2 9 None
              (Some "Done") Sample2.nested_upload Sample2.w2 Sample.admin _
              ltac:(vm_compute; reflexivity) ltac:(vm_compute; reflexivity)
              ltac:(repeat split; vm_compute; discriminate))
    as (_ & _ & Hfiles & _).
  exact Hfiles.
Defined.



(** ** Referential integrity *)

Lemma has_request_spec d id : has_request d id = true <-> is_Some (Requests d !! id).
Proof.
  unfold has_request. rewrite is_Some_alt.
  destruct (Requests d !! id); naive_solver.
Qed.

Lemma linkedb_spec d :
  linkedb d = true
  <-> (forall k rd, RequestDatas d !! k = Some rd ->
         is_Some (Requests d !! RequestData.RequestId rd))
      /\ (forall k r, Replies d !! k = Some r ->
            is_Some (Requests d !! Reply.RequestId r))
      /\ Forall (fun row => is_Some (Requests d !! row.1))
                (Request_RequestInformation d)
      /\ Forall (fun row => is_Some (Requests d !! row.1)) (Request_Format d).
Proof.
  unfold linkedb. rewrite !andb_true_iff, !forallb_forall, !Forall_forall.
  split.
  - intros (((H1 & H2) & H3) & H4). repeat split.
    + intros k rd Hrd. apply has_request_spec.
      apply (H1 (k, rd)), list_elem_of_In. by apply elem_of_map_to_list.
    + intros k r Hr. apply has_request_spec.
      apply (H2 (k, r)), list_elem_of_In. by apply elem_of_map_to_list.
    + intros row Hrow. apply has_request_spec, H3. by apply list_elem_of_In.
    + intros row Hrow. apply has_request_spec, H4. by apply list_elem_of_In.
  - intros (H1 & H2 & H3 & H4). repeat split.
    + intros [k rd] Hin%list_elem_of_In%elem_of_map_to_list.
      apply has_request_spec. eauto.
    + intros [k r] Hin%list_elem_of_In%elem_of_map_to_list.
      apply has_request_spec. eauto.
    + intros row Hrow%list_elem_of_In. apply has_request_spec. eauto.
    + intros row Hrow%list_elem_of_In. apply has_request_spec. eauto.
Qed.

Lemma is_Some_insert {A} (m : gmap Z A) i x j :
  is_Some (m !! j) -> is_Some (<[i := x]> m !! j).
Proof.
  intros H. destruct (decide (i = j)) as [->|Hne].
  - rewrite lookup_insert_eq. by eexists.
  - by rewrite lookup_insert_ne.
Qed.

Lemma accepted_succeeded cfg clock form user w p :
  validate_projection (db w) (CreateForm.ProjectionId form) = Some p ->
  succeeded (create_request cfg clock form user w).2.
Proof.
  intros Hp.
  destruct (create_request_accepted cfg clock form user w p Hp)
    as (? & ? & _ & _ & _ & _ & _ & ->). by eexists.
Qed.

Lemma call_keeps_links c w : linkedb (db w) = true -> linkedb (db (call c w).1) = true.
Proof.
  intros Hl. destruct c; simpl.
  - destruct (validate_projection (db w) (CreateForm.ProjectionId form))
      as [p|] eqn:Hp.
    2:{ by destruct (create_request_refused cfg clock form user w Hp) as (-> & _). }
    destruct (create_request_state cfg clock form user w
                (accepted_succeeded _ _ _ _ _ _ Hp)) as [-> _].
    apply linkedb_spec in Hl as (H1 & H2 & H3 & H4). apply linkedb_spec.
    destruct (CreateForm.CategoryId form =? 8); simpl; repeat split.
    + intros k rd [[<- <-]|[_ Hrd]]%lookup_insert_Some; simpl.
      * rewrite lookup_insert_eq. by eexists.
      * eapply is_Some_insert; eauto.
    + intros k r Hr. eapply is_Some_insert; eauto.
    + apply Forall_app. split.
      * eapply Forall_impl; [exact H3 |]. intros. by apply is_Some_insert.
      * apply Forall_fmap, Forall_true. simpl. intros.
        rewrite lookup_insert_eq. by eexists.
    + apply Forall_app. split.
      * eapply Forall_impl; [exact H4 |]. intros. by apply is_Some_insert.
      * apply Forall_fmap, Forall_true. simpl. intros.
        rewrite lookup_insert_eq. by eexists.
    + intros k rd Hrd. eapply is_Some_insert; eauto.
    + intros k r Hr. eapply is_Some_insert; eauto.
    + apply Forall_app. split.
      * eapply Forall_impl; [exact H3 |]. intros. by apply is_Some_insert.
      * apply Forall_fmap, Forall_true. simpl. intros.
        rewrite lookup_insert_eq. by eexists.
    + apply Forall_app. split.
      * eapply Forall_impl; [exact H4 |]. intros. by apply is_Some_insert.
      * apply Forall_fmap, Forall_true. simpl. intros.
        rewrite lookup_insert_eq. by eexists.
  - unfold assign_request. destruct (require_admin _ _); [done |].
    destruct (Requests (db w) !! request_id) as [req|] eqn:Hreq; [|done]. simpl.
    apply linkedb_spec in Hl as (H1 & H2 & H3 & H4). apply linkedb_spec. simpl.
    repeat split.
    + intros k rd Hrd. eapply is_Some_insert; eauto.
    + intros k r Hr. eapply is_Some_insert; eauto.
    + eapply Forall_impl; [exact H3 |]. intros. by apply is_Some_insert.
    + eapply Forall_impl; [exact H4 |]. intros. by apply is_Some_insert.
  - unfold list_requests. destruct (require_admin _ _); [done |].
    destruct (negb _); [done |]. by destruct (negb _).
  - unfold get_request_details. destruct (require_admin _ _); [done |].
    by destruct (Requests (db w) !! request_id).
  - destruct (Users (db w) !! payload) as [user|] eqn:Hu.
    2:{ unfold admin_reply, get_current_user. by rewrite Hu. }
    destruct (Requests (db w) !! request_id) as [req|] eqn:Hreq.
    2:{ unfold admin_reply, get_current_user. by rewrite Hu, Hreq. }
    destruct (admin_reply_state cfg clock payload request_id status_id subject
                body attachment w user req Hu Hreq) as [-> _].
    apply linkedb_spec in Hl as (H1 & H2 & H3 & H4). apply linkedb_spec. simpl.
    repeat split.
    + intros k rd Hrd. eapply is_Some_insert; eauto.
    + intros k r [[<- <-]|[_ Hr]]%lookup_insert_Some; simpl.
      * rewrite lookup_insert_eq. by eexists.
      * eapply is_Some_insert; eauto.
    + eapply Forall_impl; [exact H3 |]. intros. by apply is_Some_insert.
    + eapply Forall_impl; [exact H4 |]. intros. by apply is_Some_insert.
Qed.

(** Whatever calls are made one after the other, referential integrity is
    kept: every RequestData row, every reply and every association row still
    names a request of the Request table. *)
Theorem run_keeps_links cs w :
  linkedb (db w) = true ->
  let d := db (run cs w) in
  (forall k rd, RequestDatas d !! k = Some rd ->
     is_Some (Requests d !! RequestData.RequestId rd))
  /\ (forall k r, Replies d !! k = Some r ->
        is_Some (Requests d !! Reply.RequestId r))
  /\ Forall (fun row => is_Some (Requests d !! row.1))
            (Request_RequestInformation d)
  /\ Forall (fun row => is_Some (Requests d !! row.1)) (Request_Format d).
Proof.
  intros Hl. apply linkedb_spec. revert w Hl.
  induction cs as [|c cs IH]; intros w Hl; simpl; [done |].
  by apply IH, call_keeps_links.
Qed.

Lemma run_keeps_links_witness :
  Forall (fun row : Z * Z =>
            is_Some (Requests
                       (db (run [AdminReply Sample.cfg Sample.reply_clock 2 1 9
                                   None (Some "Done") None;
                                 CreateRequest Sample.cfg Sample.clock
                                   Sample.data_form (2, Sample.staff)]
                              Sample2.w2)) !! row.1))
         (Request_Format
            (db (run [AdminReply Sample.cfg Sample.reply_clock 2 1 9 None
                        (Some "Done") None;
                      CreateRequest Sample.cfg Sample.clock Sample.data_form
                        (2, Sample.staff)] Sample2.w2))).
Proof.
  apply (run_keeps_links _ Sample2.w2). vm_compute. reflexivity.
Defined.

(** The two storage invariants used above hold on a fresh database and are
    kept by every call. *)
Lemma call_keeps_storage c w :
  replies_wfb (db w) = true -> data_wfb (db w) = true ->
  replies_wfb (db (call c w).1) = true /\ data_wfb (db (call c w).1) = true.
Proof.
  intros Hr Hd. destruct c; simpl.
  - destruct (validate_projection (db w) (CreateForm.ProjectionId form))
      as [p|] eqn:Hp.
    2:{ by destruct (create_request_refused cfg clock form user w Hp) as (-> & _). }
    destruct (create_request_state cfg clock form user w
                (accepted_succeeded _ _ _ _ _ _ Hp)) as [-> _].
    split; [by destruct (CreateForm.CategoryId form =? 8) |].
    apply data_wfb_spec. rewrite data_wfb_spec in Hd.
    destruct (CreateForm.CategoryId form =? 8); simpl.
    + intros k rd [[<- <-]|[_ Hrd]]%lookup_insert_Some; simpl; [lia |].
      specialize (Hd _ _ Hrd). lia.
    + intros k rd Hrd. specialize (Hd _ _ Hrd). lia.
  - unfold assign_request. destruct (require_admin _ _); [done |].
    by destruct (Requests (db w) !! request_id).
  - unfold list_requests. destruct (require_admin _ _); [done |].
    destruct (negb _); [done |]. by destruct (negb _).
  - unfold get_request_details. destruct (require_admin _ _); [done |].
    by destruct (Requests (db w) !! request_id).
  - destruct (Users (db w) !! payload) as [user|] eqn:Hu.
    2:{ unfold admin_reply, get_current_user. by rewrite Hu. }
    destruct (Requests (db w) !! request_id) as [req|] eqn:Hreq.
    2:{ unfold admin_reply, get_current_user. by rewrite Hu, Hreq. }
    destruct (admin_reply_state cfg clock payload request_id status_id subject
                body attachment w user req Hu Hreq) as [-> _].
    split; [|done]. unfold replies_wfb in *. simpl.
    rewrite forallb_forall in *.
    intros [k r] Hin%list_elem_of_In%elem_of_map_to_list. simpl.
    apply Z.ltb_lt. apply lookup_insert_Some in Hin as [[<- <-]|[_ Hin]]; [lia |].
    apply elem_of_map_to_list, list_elem_of_In in Hin.
    specialize (Hr _ Hin). simpl in Hr. apply Z.ltb_lt in Hr. lia.
Qed.

(** ** Assignment read back *)

Lemma dict_get_set k k' v d :
  dict_get k (dict_set k' v d)
  = if String.eqb k k' then Some v else dict_get k d.
Proof.
  induction d as [|[k0 v0] d IH]; simpl.
  - by destruct (String.eqb k k').
  - destruct (String.eqb_spec k' k0) as [->|Hne]; simpl.
    + by destruct (String.eqb k k0).
    + rewrite IH.
      destruct (String.eqb k k0) eqn:E0, (String.eqb k k') eqn:E'; try done.
      apply String.eqb_eq in E0, E'. congruence.
Qed.

(** What an update of a dict shows under a key depends on what the dict
    showed under that key only. *)
Lemma dict_get_update k a a' b :
  dict_get k a = dict_get k a' ->
  dict_get k (dict_update a b) = dict_get k (dict_update a' b).
Proof.
  unfold dict_update. revert a a'.
  induction b as [|[k' v] b IH]; intros a a' Heq; simpl; [done |].
  apply IH. by rewrite !dict_get_set, Heq.
Qed.

(** Replacing the value of one entry does not show under another key. *)
Lemma dict_get_entry_replaced k k0 (before : Dict) v v' (rest : Dict) :
  k <> k0 ->
  dict_get k (before ++ (k0, v) :: rest) = dict_get k (before ++ (k0, v') :: rest).
Proof.
  intros Hne%String.eqb_neq.
  induction before as [|[k1 v1] before IH]; simpl.
  - by rewrite Hne.
  - by rewrite IH.
Qed.

(** After an admin has assigned an existing request, its detail view shows
    the new role under "assigned_role_id" and is otherwise, key by key, the
    view it was before. *)
Theorem assign_then_details admin a request_id role_id w req :
  Users (db w) !! admin = Some a -> User.RoleID a = Some 1 ->
  Requests (db w) !! request_id = Some req ->
  let w' := (assign_request admin request_id role_id w).1 in
  exists before after,
    get_request_details admin request_id w
    = (w, Returned (success_response "Request details fetched successfully"
                      (Some "تم جلب تفاصيل الطلب بنجاح")
                      (JDict [("request", JDict before)])))
    /\ get_request_details admin request_id w'
       = (w', Returned (success_response "Request details fetched successfully"
                          (Some "تم جلب تفاصيل الطلب بنجاح")
                          (JDict [("request", JDict after)])))
    /\ dict_get "assigned_role_id" after = Some (JInt role_id)
    /\ forall key, key <> "assigned_role_id" ->
         dict_get key after = dict_get key before.
Proof.
  intros Ha Hrole Hreq w'. subst w'.
  rewrite (assign_request_found _ _ _ _ _ _ (require_admin_inr _ _ _ Ha Hrole) Hreq).
  simpl.
  set (d' := set_requests _ (db w)).
  set (req' := with_AssignedRoleId (Some role_id) req).
  exists (details (db w) request_id req), (details d' request_id req').
  split; [by apply (get_request_details_found admin request_id w a req) |].
  split.
  { apply (get_request_details_found admin request_id (mkWorld d' _ _) a req');
      [done | done | apply lookup_insert_eq]. }
  split.
  { by destruct (details_request_entries d' request_id req')
      as (_ & _ & _ & _ & _ & _ & -> & _). }
  intros key Hkey. unfold details. apply dict_get_update.
  match goal with
  | |- dict_get _ (?e1 :: ?e2 :: ?e3 :: ?e4 :: ?e5 :: ?e6 :: ?e7 :: ?e8
                     :: (_, ?v) :: ?rest) = _ =>
      exact (dict_get_entry_replaced key "assigned_role_id"
               [e1; e2; e3; e4; e5; e6; e7; e8] v _ rest Hkey)
  end.
Qed.

Lemma assign_then_details_witness :
  exists after,
    get_request_details 1 1 Sample2.w3
    = (Sample2.w3,
       Returned (success_response "Request details fetched successfully"
                   (Some "تم جلب تفاصيل الطلب بنجاح")
                   (JDict [("request", JDict after)])))
    /\ dict_get "assigned_role_id" after = Some (JInt 2).
Proof.
  destruct (assign_then_details 1 Sample.admin 1 2 Sample2.w2 _
              ltac:(vm_compute; reflexivity) ltac:(reflexivity)
              ltac:(vm_compute; reflexivity))
    as (before & after & _ & Hafter & Hrole & _).
  exists after. split; [exact Hafter | exact Hrole].
Defined.
